(** * Authentication and project controllers of the portfolio backend

    A shallow embedding of [backend/src/controllers/user.controller.js] and
    [backend/src/models/user.model.js].  The MongoDB collections, the object
    storage and the outgoing mail are an explicit [World]; every controller is
    a computation in a state-and-exception monad over it, so that a [throw]
    after a write keeps the write, as in the JavaScript.

    Third-party libraries (bcrypt, jsonwebtoken, cloudinary, nodemailer), the
    validators and the environment variables are the fields of [Externals];
    nothing is assumed about them.  Files of the repository that the
    controller imports and that are missing are modelled from the spec, and
    say so.  Mongoose is the one of its current major versions: a query
    filter is cast through the setters of the schema, and a key whose value
    is [undefined] is removed from an update.  Its bookkeeping fields
    ([createdAt], [updatedAt], [__v]) are left out, and a database call
    never fails for a reason outside the data (no connection errors).

    Layout: the JavaScript values; the documents, the world and the monad;
    the requests and responses; the model, the collections and the ten
    controllers ([Section Backend]); an instance to evaluate on and a
    session ([Toy], [Scenario]); the vocabulary of the statements; the
    properties, with one part per claim. *)

From Stdlib Require Import String Ascii List Bool Arith Lia RelationClasses.
Import ListNotations.
Local Open Scope string_scope.
Local Open Scope list_scope.
Local Open Scope nat_scope.

(** ** JavaScript strings and values *)

Module Js.

(** A JavaScript string is held as the bytes of its UTF-8 form, so that
    equality, concatenation and the split at a comma are those of the
    bytes. *)
Definition bytes (codes : list nat) : string :=
  string_of_list_ascii (map ascii_of_nat codes).

(** The white space of [String.prototype.trim], which is WhiteSpace and
    LineTerminator of ECMAScript: U+0009 to U+000D, U+0020, U+00A0, U+1680,
    U+2000 to U+200A, U+2028, U+2029, U+202F, U+205F, U+3000 and U+FEFF. *)
Definition white_space : list string :=
  map (fun c => bytes [c]) [9; 10; 11; 12; 13; 32]
  ++ [bytes [194; 160]; bytes [225; 154; 128]]
  ++ map (fun c => bytes [226; 128; c]) (seq 128 11)
  ++ [bytes [226; 128; 168]; bytes [226; 128; 169]; bytes [226; 128; 175];
      bytes [226; 129; 159]; bytes [227; 128; 128]; bytes [239; 187; 191]].

(** [s] without [p] in front, when it starts with [p]. *)
Fixpoint drop_prefix (p s : string) : option string :=
  match p, s with
  | EmptyString, _ => Some s
  | String a p', String b s' => if Ascii.eqb a b then drop_prefix p' s' else None
  | String _ _, EmptyString => None
  end.

(** [s] without the one of [marks] it starts with, if any. *)
Fixpoint drop_first (marks : list string) (s : string) : option string :=
  match marks with
  | [] => None
  | p :: others =>
      match drop_prefix p s with
      | Some r => Some r
      | None => drop_first others s
      end
  end.

(** Leading [marks] removed, at most [n] of them. *)
Fixpoint strip (marks : list string) (n : nat) (s : string) : string :=
  match n with
  | 0 => s
  | S n' =>
      match drop_first marks s with
      | Some r => strip marks n' r
      | None => s
      end
  end.

Definition reverse (s : string) : string :=
  string_of_list_ascii (rev (list_ascii_of_string s)).

(** No string starts with more marks than it has bytes. *)
Definition trimStart (s : string) : string :=
  strip white_space (String.length s) s.

Definition trimEnd (s : string) : string :=
  reverse (strip (map reverse white_space) (String.length s) (reverse s)).

Definition trim (s : string) : string := trimStart (trimEnd s).

Definition is_ascii (c : ascii) : bool := nat_of_ascii c <? 128.

Fixpoint all_ascii (s : string) : bool :=
  match s with
  | EmptyString => true
  | String c r => is_ascii c && all_ascii r
  end.

Definition lower (c : ascii) : ascii :=
  let n := nat_of_ascii c in
  if (65 <=? n) && (n <=? 90) then ascii_of_nat (n + 32) else c.

Fixpoint lower_ascii (s : string) : string :=
  match s with
  | EmptyString => EmptyString
  | String c r => String (lower c) (lower_ascii r)
  end.

(** [String.prototype.toLowerCase]: on a string of ASCII characters the
    letters A to Z are lowered and nothing else changes; on any other string
    the result is what the case tables of the engine give, [beyond_ascii]. *)
Definition toLowerCase (beyond_ascii : string -> string) (s : string) : string :=
  if all_ascii s then lower_ascii s else beyond_ascii s.

(** [s.split(",")]: never empty, [""] splits into [[""]]. *)
Fixpoint split (sep : ascii) (s : string) : list string :=
  match s with
  | EmptyString => [EmptyString]
  | String c r =>
      if Ascii.eqb c sep then EmptyString :: split sep r
      else match split sep r with
           | h :: t => String c h :: t
           | [] => [String c EmptyString]
           end
  end.

(** A value that is a string or [undefined]. *)
Definition value := option string.

(** Truthiness: [undefined] and [""] are falsy. *)
Definition truthy (v : value) : bool :=
  match v with
  | Some s => negb (String.eqb s "")
  | None => false
  end.

(** [a || b] on values. *)
Definition or_else (a b : value) : value := if truthy a then a else b.

(** [v?.url || ""] and the like. *)
Definition or_empty (v : value) : string :=
  match v with Some s => s | None => "" end.

(** An object literal, read by key; a key that is not there reads as
    [undefined]. *)
Definition object := list (string * string).

Fixpoint get (o : object) (k : string) : value :=
  match o with
  | [] => None
  | (k', v) :: r => if String.eqb k' k then Some v else get r k
  end.

End Js.

(** ** Errors *)

(** Modelled from the spec: utils/ApiError.js is missing.  The spec has a
    single error kind that carries an HTTP status and a message. *)
Record ApiError := mkApiError { err_statusCode : nat; err_message : string }.

(** What a controller can throw: an [ApiError], or any other exception (a
    [TypeError], a Mongoose validation or duplicate-key error, a rejected
    upload). *)
Inductive Exn :=
| Api (e : ApiError)
| Other (what : string).

Definition ObjectId := nat.

(** ** Documents *)

(** models/user.model.js.  [password] and [refreshToken] are absent from a
    document loaded with [select("-password -refreshToken")]. *)
Record User := mkUser {
  _id : ObjectId;
  username : string;
  fullname : string;
  email : string;
  githubId : string;
  password : option string;
  profilePic : option string;
  watchList : list ObjectId;
  coverImg : option string;
  techStack : list string;
  domains : list string;
  projects : list ObjectId;
  refreshToken : option string
}.

(** The pending-user payload: built by [registerUser], echoed by the client
    to [verifyOtp], where every key is whatever the client sent. *)
Record UserData := mkUserData {
  ud_fullname : Js.value;
  ud_profilePic : Js.value;
  ud_coverImg : Js.value;
  ud_username : Js.value;
  ud_email : Js.value;
  ud_githubId : Js.value;
  ud_password : Js.value;
  ud_position : Js.value;
  ud_description : Js.value;
  ud_refreshToken : Js.value;
  ud_techStack : list string;
  ud_domains : list string;
  ud_projects : list ObjectId;
  ud_watchList : list ObjectId
}.

(** Modelled from the spec: models/otp.model.js is missing.  The spec has
    an [email] and a hashed [otp]; the controller reads these and [_id].
    The expiry the library manages is outside this model. *)
Record Otp := mkOtp { otp_id : ObjectId; otp_email : string; otp_otp : string }.

(** Modelled from the spec: models/project.model.js is missing.  The
    fields are those of the spec, which are the ones [addProject] writes;
    [owners] is a list of User references.  A User document that is
    assigned to such a reference stays, in the document in memory, as a
    populated reference: the document [Project.create] gives back
    serialises the owners it was given in full. *)
Record Project := mkProject {
  p_id : ObjectId;
  p_name : string;
  p_repoId : string;
  p_url : string;
  p_description : string;
  p_domain : string;
  p_techStacks : list string;
  p_stars : Js.value;
  p_owners : list ObjectId;
  p_videos : list string;
  p_images : list string;
  p_thumbnail : string
}.

Record Mail := mkMail { mail_to : string; mail_subject : string; mail_html : string }.

(** ** The world a request runs in *)

Record World := mkWorld {
  users : list User;
  otps : list Otp;
  projectDocs : list Project;
  cloud : list string;        (* local paths uploaded to object storage *)
  outbox : list Mail;         (* mail handed to the SMTP transport *)
  next_id : ObjectId          (* next ObjectId the driver allocates *)
}.

Definition set_users (f : list User -> list User) (w : World) : World :=
  mkWorld (f (users w)) (otps w) (projectDocs w) (cloud w) (outbox w) (next_id w).
Definition set_otps (f : list Otp -> list Otp) (w : World) : World :=
  mkWorld (users w) (f (otps w)) (projectDocs w) (cloud w) (outbox w) (next_id w).
Definition set_projectDocs (f : list Project -> list Project) (w : World) : World :=
  mkWorld (users w) (otps w) (f (projectDocs w)) (cloud w) (outbox w) (next_id w).
Definition set_cloud (f : list string -> list string) (w : World) : World :=
  mkWorld (users w) (otps w) (projectDocs w) (f (cloud w)) (outbox w) (next_id w).
Definition set_outbox (f : list Mail -> list Mail) (w : World) : World :=
  mkWorld (users w) (otps w) (projectDocs w) (cloud w) (f (outbox w)) (next_id w).
Definition bump_id (w : World) : World :=
  mkWorld (users w) (otps w) (projectDocs w) (cloud w) (outbox w) (S (next_id w)).

(** The writes to the collections that the controllers make. *)
Definition insert_user (doc : User) (w : World) : World :=
  set_users (fun l => l ++ [doc]) w.
Definition update_users (g : User -> User) (w : World) : World :=
  set_users (map g) w.
Definition delete_otp (id : ObjectId) (w : World) : World :=
  set_otps (filter (fun o => negb (otp_id o =? id))) w.
Definition put_otp (o : Otp) (w : World) : World :=
  set_otps (fun l =>
    filter (fun o' => negb (String.eqb (otp_email o') (otp_email o))) l ++ [o]) w.
Definition insert_project (doc : Project) (w : World) : World :=
  set_projectDocs (fun l => l ++ [doc]) w.

(** ** State and exceptions *)

Inductive Outcome (A : Type) :=
| Ret (a : A)
| Throw (e : Exn).
Arguments Ret {A} a.
Arguments Throw {A} e.

Definition M (A : Type) : Type := World -> Outcome A * World.

Definition ret {A} (a : A) : M A := fun w => (Ret a, w).
Definition throw {A} (e : Exn) : M A := fun w => (Throw e, w).
Definition bind {A B} (m : M A) (k : A -> M B) : M B :=
  fun w => match m w with
           | (Ret a, w') => k a w'
           | (Throw e, w') => (Throw e, w')
           end.
Definition gets {A} (f : World -> A) : M A := fun w => (Ret (f w), w).
Definition modify (f : World -> World) : M unit := fun w => (Ret tt, f w).

(** [try { m } catch (error) { h error }] *)
Definition try_catch {A} (m : M A) (h : Exn -> M A) : M A :=
  fun w => match m w with
           | (Throw e, w') => h e w'
           | r => r
           end.

(** [if (c) throw e;] *)
Definition throw_if (c : bool) (e : Exn) : M unit :=
  if c then throw e else ret tt.

Declare Scope js_scope.
Delimit Scope js_scope with js.
Notation "x <- m ;; k" := (bind m (fun x => k))
  (at level 61, m at next level, right associativity) : js_scope.
Notation "m ;; k" := (bind m (fun _ => k))
  (at level 61, right associativity) : js_scope.
Local Open Scope js_scope.

Definition throwApi {A} (status : nat) (msg : string) : M A :=
  throw (Api (mkApiError status msg)).

(** ** What the code calls but does not define *)

(** The claims of a JSON Web Token: the access token carries the three, the
    refresh token [_id] only. *)
Record JwtPayload := mkJwtPayload {
  jwt_id : option ObjectId;
  jwt_email : Js.value;
  jwt_username : Js.value
}.

(** What [uploadFileToCloudinary] gives back: a response that may carry a
    [url], [null], or a rejection. *)
Inductive UploadResult :=
| UploadResponse (url : Js.value)
| UploadNull
| UploadError (message : string).

Record Externals := mkExternals {
  (* String.prototype.toLowerCase on a string that is not all ASCII: the
     Unicode case tables of the engine *)
  unicode_toLowerCase : string -> string;
  (* bcrypt.hash(data, salt), bcrypt.compare(data, encrypted) *)
  bcrypt_hash : string -> string -> string;
  bcrypt_compare : string -> string -> bool;
  (* jwt.sign(payload, secret, {expiresIn}) at a time; jwt.verify(token,
     secret) at a time, [None] when it throws *)
  jwt_sign : JwtPayload -> string -> string -> nat -> string;
  jwt_verify : string -> string -> nat -> option JwtPayload;
  (* utils/cloudinary.js, nodemailer's sendMail ([false] when it rejects) *)
  uploadFileToCloudinary : string -> UploadResult;
  sendMail : Mail -> bool;
  (* utils/validator.js, which is missing: any two predicates *)
  isValidEmail : Js.value -> bool;
  isValidGitHubId : Js.value -> bool;
  (* the validators of the Project schema, which is missing *)
  Project_validate : Project -> bool;
  (* process.env *)
  ACCESS_TOKEN_SECRET : string;
  ACCESS_TOKEN_EXPIRY : string;
  REFRESH_TOKEN_SECRET : string;
  REFRESH_TOKEN_EXPIRY : string;
  AUTH_SENDER_EMAIL : string
}.

(** What differs from one request to the next without being in the request:
    the clock and the random draws. *)
Record Env := mkEnv {
  now : nat;
  genSalt : string;       (* bcrypt.genSalt(10) *)
  otpCode : string        (* the one-time code drawn for a registration *)
}.

(** A query value, once cast, against a stored one. *)
Definition eqb_value (q : Js.value) (v : string) : bool :=
  match q with
  | Some s => String.eqb s v
  | None => false          (* no stored document lacks a required path *)
  end.

Definition with_password (v : option string) (u : User) : User :=
  mkUser (_id u) (username u) (fullname u) (email u) (githubId u) v
         (profilePic u) (watchList u) (coverImg u) (techStack u) (domains u)
         (projects u) (refreshToken u).
Definition with_refreshToken (v : option string) (u : User) : User :=
  mkUser (_id u) (username u) (fullname u) (email u) (githubId u) (password u)
         (profilePic u) (watchList u) (coverImg u) (techStack u) (domains u)
         (projects u) v.
Definition with_projects (v : list ObjectId) (u : User) : User :=
  mkUser (_id u) (username u) (fullname u) (email u) (githubId u) (password u)
         (profilePic u) (watchList u) (coverImg u) (techStack u) (domains u)
         v (refreshToken u).

(** [.select("-password -refreshToken")] *)
Definition select_public (u : User) : User :=
  with_refreshToken None (with_password None u).

(** What a document in memory has pending when [save] is called. *)
Inductive Change :=
| SetRefreshToken (t : Js.value)
| PushProject (p : ObjectId).

Definition change_path (c : Change) : string :=
  match c with
  | SetRefreshToken _ => "refreshToken"
  | PushProject _ => "projects"
  end.

Definition apply_change (c : Change) (u : User) : User :=
  match c with
  | SetRefreshToken t => with_refreshToken t u
  | PushProject p => with_projects (projects u ++ [p]) u
  end.

(** ** Requests *)

Record RegisterBody := mkRegisterBody {
  rb_username : Js.value;
  rb_fullname : Js.value;
  rb_email : Js.value;
  rb_password : Js.value;
  rb_githubId : Js.value;
  rb_position : Js.value;
  rb_description : Js.value
}.

(** [req.files] of the register route: per field, the local paths multer
    stored, when the field was sent. *)
Record RegisterFiles := mkRegisterFiles {
  rf_profilePic : option (list string);
  rf_coverImg : option (list string)
}.

Record RegisterReq := mkRegisterReq {
  reg_body : RegisterBody;
  reg_files : option RegisterFiles
}.

Record VerifyBody := mkVerifyBody {
  vb_otp : Js.value;
  vb_userData : option UserData
}.

Record LoginBody := mkLoginBody {
  lb_email : Js.value;
  lb_username : Js.value;
  lb_password : Js.value
}.

(** Where a refresh token can come from: [req.cookies.refreshToken] and
    [req.body.refreshToken]. *)
Record TokenReq := mkTokenReq {
  tk_cookie : Js.value;
  tk_body : Js.value
}.

Record ProjectBody := mkProjectBody {
  pb_name : Js.value;
  pb_repoId : Js.value;
  pb_url : Js.value;
  pb_description : Js.value;
  pb_domain : Js.value;
  pb_techStack : Js.value;
  pb_stars : Js.value;
  pb_ownersUsernames : Js.value
}.

Record ProjectFiles := mkProjectFiles {
  pf_videos : option (list string);
  pf_images : option (list string);
  pf_thumbnail : option (list string)
}.

(** [req.user] is what the authentication middleware (which is missing)
    loaded, if it ran. *)
Record ProjectReq := mkProjectReq {
  pr_user : option User;
  pr_body : ProjectBody;
  pr_files : option ProjectFiles
}.

Record ContactBody := mkContactBody {
  cb_firstName : Js.value;
  cb_lastName : Js.value;
  cb_email : Js.value;
  cb_message : Js.value
}.

Inductive Request :=
| Register (r : RegisterReq)
| VerifyOtp (b : VerifyBody)
| Login (b : LoginBody)
| Logout (user : option User)
| RefreshToken (r : TokenReq)
| FetchUserData (r : TokenReq)
| AddProject (r : ProjectReq)
| FetchUserProjects (name : string)
| FetchProject (name : string) (projectName : string)
| SendEmail (name : string) (b : ContactBody).

(** ** Responses *)

(** A user object as it is serialised: a path without a value has no key. *)
Inductive JVal :=
| JStr (s : string)
| JId (i : ObjectId)
| JStrs (l : list string)
| JIds (l : list ObjectId).

Definition JObj := list (string * JVal).

Fixpoint JObj_get (o : JObj) (k : string) : option JVal :=
  match o with
  | [] => None
  | (k', v) :: r => if String.eqb k' k then Some v else JObj_get r k
  end.

Definition has_key (o : JObj) (k : string) : bool :=
  match JObj_get o k with Some _ => true | None => false end.

Definition key_if_set (k : string) (v : Js.value) : JObj :=
  match v with Some s => [(k, JStr s)] | None => [] end.

Definition toJSON (u : User) : JObj :=
  [("_id", JId (_id u)); ("username", JStr (username u));
   ("fullname", JStr (fullname u)); ("email", JStr (email u));
   ("githubId", JStr (githubId u))]
  ++ key_if_set "password" (password u)
  ++ key_if_set "profilePic" (profilePic u)
  ++ [("watchList", JIds (watchList u))]
  ++ key_if_set "coverImg" (coverImg u)
  ++ [("techStack", JStrs (techStack u)); ("domains", JStrs (domains u));
      ("projects", JIds (projects u))]
  ++ key_if_set "refreshToken" (refreshToken u).

(** The [data] of each response. *)
Inductive Data :=
| DPending (d : UserData)                       (* register *)
| DUser (o : JObj)                              (* verify-otp, user data *)
| DLogin (user : option JObj) (accessToken refreshToken : Js.value)
| DTokens (accessToken refreshToken : Js.value) (* refresh-token *)
| DEmpty                                        (* logout *)
| DProjects (projectObjects : list Project)     (* projects of a user *)
| DProjectOwners (p : Project) (owners : list JObj)  (* add project, one project *)
| DSuccess.                                     (* contact mail *)

Record ApiResponse := mkApiResponse {
  statusCode : nat;
  data : Data;
  message : string;
  success : bool
}.

(** Modelled from the spec: utils/ApiResponse.js is missing.  The spec has
    success responses be [{statusCode, data, message, success: true}], and
    the controllers build no other with it. *)
Definition new_ApiResponse (code : nat) (d : Data) (msg : string) : ApiResponse :=
  mkApiResponse code d msg true.

Record CookieOption := mkCookieOption { httpOnly : bool; secure : bool }.

Inductive CookieOp :=
| cookie (name : string) (val : Js.value) (opt : CookieOption)
| clearCookie (name : string) (opt : CookieOption).

Record Response := mkResponse {
  status : nat;
  cookies : list CookieOp;
  json : ApiResponse
}.

(** The pending-user payload as it is serialised. *)
Definition pending_object (d : UserData) : JObj :=
  key_if_set "fullname" (ud_fullname d)
  ++ key_if_set "profilePic" (ud_profilePic d)
  ++ key_if_set "coverImg" (ud_coverImg d)
  ++ key_if_set "username" (ud_username d)
  ++ key_if_set "email" (ud_email d)
  ++ key_if_set "githubId" (ud_githubId d)
  ++ key_if_set "password" (ud_password d)
  ++ key_if_set "position" (ud_position d)
  ++ key_if_set "description" (ud_description d).

(** The user objects a response carries. *)
Definition user_objects (d : Data) : list JObj :=
  match d with
  | DPending d => [pending_object d]
  | DUser o => [o]
  | DLogin (Some o) _ _ => [o]
  | DProjectOwners _ owners => owners
  | _ => []
  end.

Section Backend.

Variable X : Externals.

(** *** models/user.model.js *)

(** [userSchema.pre("save")]: [isModified] tells which paths changed. *)
Definition pre_save (salt : string) (isModified : string -> bool)
    (this : User) : M User :=
  if negb (isModified "password") then ret this
  else match password this with
       | Some p => ret (with_password (Some (bcrypt_hash X p salt)) this)
       | None => throw (Other "data and salt arguments required")
       end.

Definition isPasswordCorrect (this : User) (pw : string) : M bool :=
  match password this with
  | Some h => ret (bcrypt_compare X pw h)
  | None => throw (Other "data and hash arguments required")
  end.

Definition generateAccessToken (this : User) (t : nat) : string :=
  jwt_sign X
    (mkJwtPayload (Some (_id this)) (Some (email this)) (Some (username this)))
    (ACCESS_TOKEN_SECRET X) (ACCESS_TOKEN_EXPIRY X) t.

Definition generateRefreshToken (this : User) (t : nat) : string :=
  jwt_sign X (mkJwtPayload (Some (_id this)) None None)
    (REFRESH_TOKEN_SECRET X) (REFRESH_TOKEN_EXPIRY X) t.

(** *** The setters of the schema

    [trim: true] and [lowercase: true] declare setters.  Mongoose runs the
    setters of a path on a value it stores there and, when it casts a query
    filter, on the value the filter asks for: [username] is trimmed and
    lower-cased, [fullname], [email] and [githubId] are trimmed. *)
Definition set_username (v : string) : string :=
  Js.toLowerCase (unicode_toLowerCase X) (Js.trim v).

(** A filter value after the cast: [undefined] is left as it is. *)
Definition cast (setter : string -> string) (q : Js.value) : Js.value :=
  option_map setter q.

(** *** The [User] collection *)

Definition User_findOne (p : User -> bool) : M (option User) :=
  gets (fun w => find p (users w)).

(** [User.findOne({username: name})] *)
Definition User_findOne_username (name : string) : M (option User) :=
  User_findOne (fun u => String.eqb (username u) (set_username name)).

Definition User_findById (id : option ObjectId) : M (option User) :=
  match id with
  | Some i => User_findOne (fun u => _id u =? i)
  | None => ret None
  end.

(** A new document from a payload: the schema keeps its own paths, runs
    their setters, and gives arrays their default. *)
Definition new_User (id : ObjectId) (d : UserData) : User :=
  mkUser id
    (set_username (Js.or_empty (ud_username d)))
    (Js.trim (Js.or_empty (ud_fullname d)))
    (Js.trim (Js.or_empty (ud_email d)))
    (Js.trim (Js.or_empty (ud_githubId d)))
    (ud_password d) (ud_profilePic d) (ud_watchList d) (ud_coverImg d)
    (ud_techStack d) (ud_domains d) (ud_projects d) (ud_refreshToken d).

(** [required: true] on a string path: present and not empty. *)
Definition validate_User (u : User) : bool :=
  negb (String.eqb (username u) "") && negb (String.eqb (fullname u) "")
  && negb (String.eqb (email u) "") && negb (String.eqb (githubId u) "")
  && Js.truthy (password u).

(** [unique: true] on [username] and on [email]. *)
Definition duplicate_key (u : User) (l : list User) : bool :=
  existsb (fun v => String.eqb (username v) (username u)
                    || String.eqb (email v) (email u)) l.

(** [User.create(payload)]: build, validate, run the save hook, insert. *)
Definition User_create (salt : string) (d : UserData) : M User :=
  id <- gets next_id ;;
  modify bump_id ;;
  let doc := new_User id d in
  throw_if (negb (validate_User doc)) (Other "ValidationError") ;;
  doc <- pre_save salt (fun _ => true) doc ;;
  dup <- gets (fun w => duplicate_key doc (users w)) ;;
  throw_if dup (Other "E11000 duplicate key error") ;;
  modify (insert_user doc) ;;
  ret doc.

(** [doc.save()] on a loaded document: the save hook, then the pending
    changes written to the stored document of the same [_id]. *)
Definition User_save (salt : string) (doc : User) (changes : list Change)
    : M unit :=
  let isModified path := existsb (String.eqb path) (map change_path changes) in
  doc' <- pre_save salt isModified doc ;;
  stored <- User_findById (Some (_id doc)) ;;
  match stored with
  | None => throw (Other "DocumentNotFoundError")
  | Some _ =>
      let write u :=
        let u := fold_left (fun u c => apply_change c u) changes u in
        if isModified "password" then with_password (password doc') u else u in
      modify (update_users (fun u => if _id u =? _id doc then write u else u))
  end.

(** [User.findByIdAndUpdate(id, {$set: {refreshToken: v}})]: no save hook
    runs.  Mongoose removes a key whose value is [undefined] from the update
    before it is sent, so that with [v] undefined nothing is set; what is
    left of the update writes no path of the document but [updatedAt]. *)
Definition User_findByIdAndUpdate_refreshToken (id : ObjectId) (v : Js.value)
    : M unit :=
  match v with
  | None => ret tt
  | Some t =>
      modify (update_users (fun u =>
        if _id u =? id then with_refreshToken (Some t) u else u))
  end.

(** *** The [OtpVerification] and [Project] collections *)

Definition OtpVerification_findOne (mail : string) : M (option Otp) :=
  gets (fun w => find (fun o => String.eqb (otp_email o) mail) (otps w)).

Definition OtpVerification_findByIdAndDelete (id : ObjectId) : M unit :=
  modify (delete_otp id).

Definition Project_create (mk : ObjectId -> Project) : M Project :=
  id <- gets next_id ;;
  modify bump_id ;;
  let doc := mk id in
  throw_if (negb (Project_validate X doc)) (Other "ValidationError") ;;
  modify (insert_project doc) ;;
  ret doc.

Definition Project_findById (id : ObjectId) : M (option Project) :=
  gets (fun w => find (fun p => p_id p =? id) (projectDocs w)).

(** [Project.find({_id: {$in: ids}})] *)
Definition Project_find_in (ids : list ObjectId) : M (list Project) :=
  gets (fun w => filter (fun p => existsb (Nat.eqb (p_id p)) ids) (projectDocs w)).

(** *** Object storage and mail *)

(** One call of [uploadFileToCloudinary]; a file that was taken is in
    storage from then on. *)
Definition upload (path : string) : M Js.value :=
  match uploadFileToCloudinary X path with
  | UploadResponse url => modify (set_cloud (fun l => l ++ [path])) ;; ret url
  | UploadNull => ret None
  | UploadError msg => throw (Other msg)
  end.

Definition transporter_sendMail (m : Mail) : M unit :=
  if sendMail X m then modify (set_outbox (fun l => l ++ [m]))
  else throw (Other "mail rejected").

(** *** Helpers of the repository that are not part of the sources *)

(** Modelled from the spec: utils/generateAccessTokenAndRefreshToken.js is
    missing.  The spec has it issue a fresh access/refresh pair and persist
    the refresh token on the User record, overwriting any prior value; the
    tokens are those of [generateAccessToken] and [generateRefreshToken], and
    the keys of the object it returns are the ones [loginUser] reads,
    [accessToken] and [refreshToken]. *)
Definition generateAccessTokenAndRefreshToken (env : Env) (userId : ObjectId)
    : M Js.object :=
  user <- User_findById (Some userId) ;;
  match user with
  | None => throw (Other "user not found")
  | Some user =>
      let accessToken := generateAccessToken user (now env) in
      let refreshToken := generateRefreshToken user (now env) in
      User_save (genSalt env) user [SetRefreshToken (Some refreshToken)] ;;
      ret [("accessToken", accessToken); ("refreshToken", refreshToken)]
  end.

(** Modelled from the spec: utils/sendOtpVerificationEmail.js is missing.
    The spec has a one-time code generated, hashed, stored keyed by email,
    and emailed to the user. *)
Definition sendOtpVerificationEmail (env : Env) (userData : UserData) : M unit :=
  match ud_email userData with
  | None => throw (Other "no recipient")
  | Some mail =>
      let hashed := bcrypt_hash X (otpCode env) (genSalt env) in
      id <- gets next_id ;;
      modify bump_id ;;
      modify (put_otp (mkOtp id mail hashed)) ;;
      transporter_sendMail (mkMail mail "OTP verification" (otpCode env))
  end.

(** *** controllers/user.controller.js *)

Definition cookieOption : CookieOption := mkCookieOption true true.

(** [catch (error) { if (error instanceof ApiError) throw error; else throw
    new ApiError(500, msg) }] *)
Definition rethrow {A} (msg : string) (error : Exn) : M A :=
  match error with
  | Api e => throw (Api e)
  | Other _ => throwApi 500 msg
  end.

(** [field?.trim() === ""] *)
Definition blank (field : Js.value) : bool :=
  match field with
  | Some s => String.eqb (Js.trim s) ""
  | None => false
  end.

(** [req.files && req.files.f], then [uploadFileToCloudinary(f[0].path)] and
    [r?.url || ""]. *)
Definition upload_first (field : option (list string)) : M string :=
  match field with
  | None => ret ""
  | Some [] => throw (Other "TypeError: Cannot read properties of undefined")
  | Some (path :: _) => r <- upload path ;; ret (Js.or_empty r)
  end.

Definition registerUser (env : Env) (req : RegisterReq) : M Response :=
  try_catch
    (let b := reg_body req in
     throw_if (existsb blank
                 [rb_username b; rb_fullname b; rb_email b; rb_password b;
                  rb_githubId b; rb_position b; rb_description b])
       (Api (mkApiError 400 "All fields are required")) ;;
     throw_if (negb (isValidEmail X (rb_email b)))
       (Api (mkApiError 400 "Email not acceptable")) ;;
     throw_if (negb (isValidGitHubId X (rb_githubId b)))
       (Api (mkApiError 400 "Github ID not acceptable")) ;;
     existedUser <- User_findOne (fun u =>
       eqb_value (cast set_username (rb_username b)) (username u)
       || eqb_value (cast Js.trim (rb_email b)) (email u)
       || eqb_value (cast Js.trim (rb_githubId b)) (githubId u)) ;;
     match existedUser with
     | Some _ => throwApi 409 "Username/email/github already exists"
     | None =>
         profilePicUrl <- upload_first
           (match reg_files req with Some f => rf_profilePic f | None => None end) ;;
         coverImgUrl <- upload_first
           (match reg_files req with Some f => rf_coverImg f | None => None end) ;;
         match rb_username b with
         | None => throw (Other "TypeError: Cannot read properties of undefined")
         | Some name =>
             let userData :=
               mkUserData (rb_fullname b) (Some profilePicUrl) (Some coverImgUrl)
                 (Some (Js.toLowerCase (unicode_toLowerCase X) name))
                 (rb_email b) (rb_githubId b)
                 (rb_password b) (rb_position b) (rb_description b)
                 None [] [] [] [] in
             sendOtpVerificationEmail env userData ;;
             ret (mkResponse 201 []
                    (new_ApiResponse 201 (DPending userData)
                       "User registered successfully"))
         end
     end)
    (rethrow "Registration failed. Please try again.").

Definition verifyOtp (env : Env) (body : VerifyBody) : M Response :=
  try_catch
    (let userOtp := vb_otp body in
     let mail := match vb_userData body with
                 | Some d => ud_email d
                 | None => None
                 end in
     throw_if (negb (Js.truthy userOtp) || negb (Js.truthy mail))
       (Api (mkApiError 400 "OTP and user email are required")) ;;
     otpVer <- OtpVerification_findOne (Js.or_empty mail) ;;
     match otpVer with
     | None => throwApi 404 "User not found in database"
     | Some otpVer =>
         let doesOtpMatch := bcrypt_compare X (Js.or_empty userOtp) (otp_otp otpVer) in
         throw_if (negb doesOtpMatch) (Api (mkApiError 400 "Wrong OTP")) ;;
         OtpVerification_findByIdAndDelete (otp_id otpVer) ;;
         match vb_userData body with
         | None => throw (Other "TypeError: Cannot read properties of undefined")
         | Some userData =>
             newUser <- User_create (genSalt env) userData ;;
             ret (mkResponse 200 []
                    (new_ApiResponse 200 (DUser (toJSON newUser)) "OTP verified"))
         end
     end)
    (rethrow "Verification failed. Please try again.").

Definition loginUser (env : Env) (body : LoginBody) : M Response :=
  throw_if (negb ((Js.truthy (lb_username body) || Js.truthy (lb_email body))
                  && Js.truthy (lb_password body)))
    (Api (mkApiError 400 "One identification field and password field is required")) ;;
  foundUser <- User_findOne (fun u =>
    eqb_value (cast set_username (lb_username body)) (username u)
    || eqb_value (cast Js.trim (lb_email body)) (email u)) ;;
  match foundUser with
  | None => throwApi 404 "User not found"
  | Some foundUser =>
      isPassValid <- isPasswordCorrect foundUser (Js.or_empty (lb_password body)) ;;
      throw_if (negb isPassValid) (Api (mkApiError 401 "Incorrect Password")) ;;
      tokens <- generateAccessTokenAndRefreshToken env (_id foundUser) ;;
      let refreshToken := Js.get tokens "refreshToken" in
      let accessToken := Js.get tokens "accessToken" in
      newUser <- User_findById (Some (_id foundUser)) ;;
      ret (mkResponse 200
             [cookie "accessToken" accessToken cookieOption;
              cookie "refreshToken" refreshToken cookieOption]
             (new_ApiResponse 200
                (DLogin (option_map (fun u => toJSON (select_public u)) newUser)
                   accessToken refreshToken)
                "User Logged In Successfully"))
  end.

Definition logoutUser (user : option User) : M Response :=
  match user with
  | None => throw (Other "TypeError: Cannot read properties of undefined")
  | Some user =>
      User_findByIdAndUpdate_refreshToken (_id user) None ;;
      ret (mkResponse 200
             [clearCookie "refreshToken" cookieOption;
              clearCookie "accessToken" cookieOption]
             (new_ApiResponse 200 DEmpty "User Logged Out Successfully"))
  end.

(** [incomingRefreshToken !== user?.refreshToken], negated *)
Definition same_token (incoming : string) (stored : Js.value) : bool :=
  match stored with
  | Some t => String.eqb incoming t
  | None => false
  end.

(** The part [refreshAccessToken] and [fetchUserData] share: the token is
    verified, its user looked up and the token compared with the stored
    one. *)
Definition user_of_refreshToken (env : Env) (incoming : string) : M User :=
  match jwt_verify X incoming (REFRESH_TOKEN_SECRET X) (now env) with
  | None => throw (Other "JsonWebTokenError")
  | Some decodedToken =>
      user <- User_findById (jwt_id decodedToken) ;;
      match user with
      | None => throwApi 401 "Invalid Refresh Token"
      | Some user =>
          throw_if (negb (same_token incoming (refreshToken user)))
            (Api (mkApiError 401 "Refresh token expired or used")) ;;
          ret user
      end
  end.

Definition refreshAccessToken (env : Env) (req : TokenReq) : M Response :=
  let incomingRefreshToken := Js.or_else (tk_cookie req) (tk_body req) in
  throw_if (negb (Js.truthy incomingRefreshToken))
    (Api (mkApiError 401 "Unauthorized Access")) ;;
  try_catch
    (user <- user_of_refreshToken env (Js.or_empty incomingRefreshToken) ;;
     tokens <- generateAccessTokenAndRefreshToken env (_id user) ;;
     let newRefreshToken := Js.get tokens "newRefreshToken" in
     let accessToken := Js.get tokens "accessToken" in
     ret (mkResponse 200
            [cookie "accessToken" accessToken cookieOption;
             cookie "refreshToken" newRefreshToken cookieOption]
            (new_ApiResponse 200 (DTokens accessToken newRefreshToken)
               "Access Token Refreshed")))
    (fun _ => throwApi 401 "Invalid Refresh Token").

Definition fetchUserData (env : Env) (req : TokenReq) : M Response :=
  let incomingRefreshToken := Js.or_else (tk_cookie req) (tk_body req) in
  throw_if (negb (Js.truthy incomingRefreshToken))
    (Api (mkApiError 401 "Unauthorized Access")) ;;
  try_catch
    (user <- user_of_refreshToken env (Js.or_empty incomingRefreshToken) ;;
     (* position and description are not paths of the schema *)
     let userValues :=
       [("fullname", JStr (fullname user))]
       ++ key_if_set "profilePic" (profilePic user)
       ++ key_if_set "coverImg" (coverImg user)
       ++ [("username", JStr (username user)); ("email", JStr (email user));
           ("githubId", JStr (githubId user))] in
     ret (mkResponse 200 []
            (new_ApiResponse 200 (DUser userValues) "User Data Successfully fetched")))
    (fun _ => throwApi 401 "Error Fetching Data").

(** [Promise.all(l.map(async ...))]: every task is started, so each one runs
    whatever the others do; the result is the first rejection in list order,
    if there is one. *)
Fixpoint Promise_all {A B} (task : A -> M B) (items : list A) : M (list B) :=
  match items with
  | [] => ret []
  | a :: r => fun w =>
      match task a w with
      | (Ret b, w1) =>
          match Promise_all task r w1 with
          | (Ret bs, w2) => (Ret (b :: bs), w2)
          | (Throw e, w2) => (Throw e, w2)
          end
      | (Throw e, w1) => (Throw e, snd (Promise_all task r w1))
      end
  end.

Definition exn_message (e : Exn) : string :=
  match e with
  | Api a => err_message a
  | Other what => what
  end.

(** One upload of [addProject]: a rejection becomes a 500 that names the
    kind of file. *)
Definition upload_or_500 (kind : string) (path : string) : M string :=
  try_catch
    (r <- upload path ;; ret (Js.or_empty r))
    (fun uploadError =>
       throwApi 500 (String.append "Error uploading "
                       (String.append kind
                          (String.append ": " (exn_message uploadError))))).

Definition upload_each (kind : string) (field : option (list string))
    : M (list string) :=
  match field with
  | None => ret []
  | Some paths => Promise_all (upload_or_500 kind) paths
  end.

Definition find_owner (ownerUsername : string) : M User :=
  user <- User_findOne_username ownerUsername ;;
  match user with
  | None =>
      throwApi 404 (String.append "Owner with username "
                      (String.append ownerUsername " not found"))
  | Some user => ret user
  end.

Definition addProject (env : Env) (req : ProjectReq) : M Response :=
  try_catch
    (match pr_user req with
     | None => throwApi 404 "User not found"
     | Some user =>
         let b := pr_body req in
         match pb_ownersUsernames b, pb_techStack b with
         | None, _ | _, None =>
             throw (Other "TypeError: Cannot read properties of undefined")
         | Some ownersUsernames, Some techStack =>
             let ownerUsernames := map Js.trim (Js.split "," ownersUsernames) in
             let techStacks := map Js.trim (Js.split "," techStack) in
             throw_if (negb (Js.truthy (pb_name b)) || negb (Js.truthy (pb_repoId b))
                       || negb (Js.truthy (pb_url b))
                       || negb (Js.truthy (pb_description b))
                       || negb (Js.truthy (pb_domain b)))
               (Api (mkApiError 400 "Missing required project data")) ;;
             owners <- Promise_all find_owner ownerUsernames ;;
             let files f := match pr_files req with Some fs => f fs | None => None end in
             videosUrl <- upload_each "video" (files pf_videos) ;;
             imagesUrl <- upload_each "image" (files pf_images) ;;
             thumbnailUrl <-
               match files pf_thumbnail with
               | None => ret ""
               | Some [] => throw (Other "TypeError: Cannot read properties of undefined")
               | Some (thumbnailPath :: _) => upload_or_500 "thumbnail" thumbnailPath
               end ;;
             newProject <- Project_create (fun id =>
               mkProject id (Js.or_empty (pb_name b)) (Js.or_empty (pb_repoId b))
                 (Js.or_empty (pb_url b)) (Js.or_empty (pb_description b))
                 (Js.or_empty (pb_domain b)) techStacks (pb_stars b)
                 (map _id owners) videosUrl imagesUrl thumbnailUrl) ;;
             User_save (genSalt env) user [PushProject (p_id newProject)] ;;
             ret (mkResponse 200 []
                    (new_ApiResponse 200
                       (DProjectOwners newProject (map toJSON owners))
                       "New project added successfully"))
         end
     end)
    (rethrow "Internal Server Error while adding project").

Definition owner_not_found (name : string) : string :=
  String.append "Owner with username " (String.append name " not found").

Fixpoint somes {A} (l : list (option A)) : list A :=
  match l with
  | [] => []
  | Some a :: r => a :: somes r
  | None :: r => somes r
  end.

Definition fetchUserProjects (name : string) : M Response :=
  try_catch
    (user <- User_findOne_username name ;;
     match option_map select_public user with
     | None => throwApi 404 (owner_not_found name)
     | Some user =>
         match projects user with
         | [] =>
             ret (mkResponse 200 []
                    (new_ApiResponse 200 (DProjects [])
                       "No projects found for this user"))
         | _ =>
             projectObjects <- Promise_all Project_findById (projects user) ;;
             let validProjects := somes projectObjects in
             ret (mkResponse 200 []
                    (new_ApiResponse 200 (DProjects validProjects)
                       "User Projects Successfully fetched"))
         end
     end)
    (rethrow "Error Fetching User Projects").

Definition fetchProject (name projectName : string) : M Response :=
  try_catch
    (user <- User_findOne_username name ;;
     match option_map select_public user with
     | None => throwApi 404 (owner_not_found name)
     | Some user =>
         let projectIds := projects user in
         found <- Project_find_in projectIds ;;
         match find (fun p => String.eqb (p_name p) projectName) found with
         | None => throw (Other "TypeError: Cannot read properties of undefined")
         | Some project =>
             ownerObjects <- Promise_all
               (fun ownerId =>
                  owner <- User_findById (Some ownerId) ;;
                  ret (option_map select_public owner))
               (p_owners project) ;;
             let validOwnerObjects := somes ownerObjects in
             ret (mkResponse 200 []
                    (new_ApiResponse 200
                       (DProjectOwners project (map toJSON validOwnerObjects))
                       "Project successfully fetched"))
         end
     end)
    (rethrow "Error Fetching User Projects").

(** [${v}] in a template literal. *)
Definition interpolate (v : Js.value) : string :=
  match v with Some s => s | None => "undefined" end.

(** A line break of the template of [sendEmail] and the indentation of the
    line after it. *)
Definition line (indent : nat) : string :=
  String (ascii_of_nat 10) (string_of_list_ascii (repeat " "%char indent)).

(** The [html] of the contact mail: the template literal as it is written,
    line breaks and indentation included. *)
Definition contact_html (body : ContactBody) : string :=
  String.concat ""
    [line 8; "<p><strong>First Name:</strong> "; interpolate (cb_firstName body); "</p>";
     line 8; "<p><strong>Last Name:</strong> "; interpolate (cb_lastName body); "</p>";
     line 8; "<p><strong>Email By:</strong> "; interpolate (cb_email body); "</p>";
     line 8; "<p><strong>Message:</strong></p>";
     line 8; "<p>"; interpolate (cb_message body); "</p>";
     line 6].

Definition sendEmail (name : string) (body : ContactBody) : M Response :=
  try_catch
    (user <- User_findOne_username name ;;
     match option_map select_public user with
     | None => throwApi 404 (owner_not_found name)
     | Some user =>
         let userEmail := email user in
         throw_if (String.eqb userEmail "")
           (Api (mkApiError 404
              (String.append "Email for username " (String.append name " not found")))) ;;
         let html := contact_html body in
         transporter_sendMail (mkMail userEmail "Contact Form Submission" html) ;;
         ret (mkResponse 200 [] (new_ApiResponse 200 DSuccess "Email sent successfully"))
     end)
    (rethrow "Error while sending he email.").


(** The router: one request, one controller. *)
Definition handle (env : Env) (req : Request) : M Response :=
  match req with
  | Register r => registerUser env r
  | VerifyOtp b => verifyOtp env b
  | Login b => loginUser env b
  | Logout user => logoutUser user
  | RefreshToken r => refreshAccessToken env r
  | FetchUserData r => fetchUserData env r
  | AddProject r => addProject env r
  | FetchUserProjects name => fetchUserProjects name
  | FetchProject name projectName => fetchProject name projectName
  | SendEmail name b => sendEmail name b
  end.

End Backend.


(** ** A small instance to run the controllers on

    Stand-ins for the libraries, simple enough to evaluate: a "hash" that
    keeps its input readable behind a salt of four characters, tokens that
    spell out what they sign, and validators that only look for a mark. *)

Module Toy.

Definition pad4 (s : string) : string := String.substring 0 4 (String.append s "....").

Definition hash (data salt : string) : string :=
  String.append "$2b$" (String.append (pad4 salt) (String.append "$" data)).

Definition compare (data encrypted : string) : bool :=
  String.eqb (String.substring 9 (String.length encrypted - 9) encrypted) data
  && String.eqb (String.substring 0 4 encrypted) "$2b$".

Fixpoint digits (fuel n : nat) (acc : string) : string :=
  match fuel with
  | 0 => acc
  | S fuel' =>
      let acc' := String (ascii_of_nat (48 + n mod 10)) acc in
      if n / 10 =? 0 then acc' else digits fuel' (n / 10) acc'
  end.

Definition show (n : nat) : string := digits (S n) n "".

Definition lifetime : nat := 100.

Definition sign (p : JwtPayload) (secret expiresIn : string) (t : nat) : string :=
  String.concat "."
    [secret;
     match jwt_id p with Some i => show i | None => "-" end;
     Js.or_empty (jwt_email p); Js.or_empty (jwt_username p); show t].

(** A token is taken when it is what [sign] gives, with this secret, for an
    [_id] below 8 at a time that is not more than [lifetime] back. *)
Definition verify (token secret : string) (t : nat) : option JwtPayload :=
  let candidates :=
    flat_map (fun i => map (fun iat => (mkJwtPayload (Some i) None None, iat))
                         (seq 0 (S t)))
             (seq 0 8) in
  match find (fun c => String.eqb token (sign (fst c) secret "" (snd c))
                       && (t <? snd c + lifetime)) candidates with
  | Some c => Some (fst c)
  | None => None
  end.

Fixpoint contains (c : ascii) (s : string) : bool :=
  match s with
  | EmptyString => false
  | String d r => Ascii.eqb c d || contains c r
  end.

Definition X : Externals :=
  mkExternals (fun s => s) hash compare sign verify
    (fun path => UploadResponse (Some (String.append "https://cdn/" path)))
    (fun _ => true)
    (fun v => match v with Some s => contains "@" s | None => false end)
    (fun v => Js.truthy v)
    (fun _ => true)
    "access-secret" "15m" "refresh-secret" "10d" "noreply@example.org".

Definition empty : World := mkWorld [] [] [] [] [] 0.

Definition at_time (t : nat) : Env := mkEnv t "salt" "482913".

Definition alice_body : RegisterBody :=
  mkRegisterBody (Some "Alice") (Some "Alice A") (Some "alice@example.org")
    (Some "s3cret") (Some "alice-gh") (Some "dev") (Some "hello").

(** The world after [request], whatever its outcome. *)
Definition after (t : nat) (request : Request) (w : World) : World :=
  snd (handle X (at_time t) request w).

End Toy.

(** ** A session to evaluate: Alice registers, verifies, logs in *)

Module Scenario.

Definition pending : World :=
  Eval vm_compute in
    Toy.after 1 (Register (mkRegisterReq Toy.alice_body None)) Toy.empty.

(** The payload the register response carried, as the client echoes it. *)
Definition alice_payload : UserData :=
  mkUserData (Some "Alice A") (Some "") (Some "") (Some "alice")
    (Some "alice@example.org") (Some "alice-gh") (Some "s3cret")
    (Some "dev") (Some "hello") None [] [] [] [].

Definition verify_alice : VerifyBody :=
  mkVerifyBody (Some "482913") (Some alice_payload).

Definition registered : World :=
  Eval vm_compute in Toy.after 2 (VerifyOtp verify_alice) pending.

Definition login_alice : LoginBody :=
  mkLoginBody None (Some "alice") (Some "s3cret").

Definition logged_in : World :=
  Eval vm_compute in Toy.after 3 (Login login_alice) registered.

(** A second registration for the username Alice asked for, made while
    hers was pending, and the store once Alice has verified. *)
Definition carol_payload : UserData :=
  mkUserData (Some "Carol C") (Some "") (Some "") (Some "alice")
    (Some "carol@example.org") (Some "carol-gh") (Some "pa55") (Some "ops")
    (Some "hi") None [] [] [] [].

Definition verify_carol : VerifyBody :=
  mkVerifyBody (Some "482913") (Some carol_payload).

Definition overtaken : World :=
  Eval vm_compute in
    Toy.after 3 (VerifyOtp verify_alice)
      (Toy.after 2
         (Register (mkRegisterReq
            (mkRegisterBody (Some "alice") (Some "Carol C")
               (Some "carol@example.org") (Some "pa55") (Some "carol-gh")
               (Some "ops") (Some "hi")) None))
         pending).

(** Alice as the authentication middleware loads her. *)
Definition alice : User :=
  mkUser 1 "alice" "Alice A" "alice@example.org" "alice-gh" None (Some "")
    [] (Some "") [] [] [] None.

End Scenario.

(** * The vocabulary of the statements *)

(** ** Relations on worlds and the writes they hold across

    A relation on worlds that is a preorder and holds across each write of a
    kind holds across every computation made of such writes, whether it
    returns or throws.  The kinds: storage, outbox and [_id] allocation
    ([StaysCore]); the OTP collection ([StaysOtps]); the projects and the
    updates of stored users that keep [_id] and [password] ([Stays]); the
    insertion of a user ([StaysInsert]). *)

Class StaysCore (R : World -> World -> Prop) : Prop := {
  stays_refl : forall w, R w w;
  stays_trans : forall a b c, R a b -> R b c -> R a c;
  stays_cloud : forall f w, R w (set_cloud f w);
  stays_outbox : forall f w, R w (set_outbox f w);
  stays_bump : forall w, R w (bump_id w)
}.

Class StaysOtps (R : World -> World -> Prop) : Prop := {
  stays_put_otp : forall o w, R w (put_otp o w);
  stays_delete_otp : forall id w, R w (delete_otp id w)
}.

Class Stays (R : World -> World -> Prop) : Prop := {
  stays_core :: StaysCore R;
  stays_insert_project : forall doc w, R w (insert_project doc w);
  stays_update : forall (g : User -> User) w,
    (forall u, _id (g u) = _id u /\ password (g u) = password u) ->
    R w (update_users g w)
}.

Class StaysInsert (R : World -> World -> Prop) : Prop := {
  stays_insert_user : forall doc w, R w (insert_user doc w)
}.

(** [m] keeps [R]: the world it leaves is related to the one it found,
    whether it returns or throws. *)
Definition keeps (R : World -> World -> Prop) {A} (m : M A) : Prop :=
  forall w, R w (snd (m w)).

(** The stored users are the same documents up to updates of their fields:
    the same [_id]s in the same order. *)
Definition same_ids (w w' : World) : Prop :=
  map _id (users w') = map _id (users w).

(** The users and the projects are what they were. *)
Definition same_docs (w w' : World) : Prop :=
  users w' = users w /\ projectDocs w' = projectDocs w.

(** ** What the statements speak of *)

(** The document [User.create] inserts, when it inserts one: the payload
    has a password, its username, trimmed and in lower case, and its
    fullname, email and githubId, trimmed, are not empty, and no stored user
    has that username or that email.  The document has the next [_id], these
    four values, the hash of the password, and the other paths of the schema
    as the payload gives them. *)
Definition insertable (X : Externals) (salt : string) (d : UserData) (w : World)
    : option User :=
  let name :=
    Js.toLowerCase (unicode_toLowerCase X) (Js.trim (Js.or_empty (ud_username d))) in
  let full := Js.trim (Js.or_empty (ud_fullname d)) in
  let mail := Js.trim (Js.or_empty (ud_email d)) in
  let handle := Js.trim (Js.or_empty (ud_githubId d)) in
  match ud_password d with
  | Some p =>
      if negb (String.eqb name "") && negb (String.eqb full "")
         && negb (String.eqb mail "") && negb (String.eqb handle "")
         && negb (String.eqb p "")
         && negb (existsb (fun v => String.eqb (username v) name
                                    || String.eqb (email v) mail) (users w))
      then Some (mkUser (next_id w) name full mail handle
                   (Some (bcrypt_hash X p salt)) (ud_profilePic d) (ud_watchList d)
                   (ud_coverImg d) (ud_techStack d) (ud_domains d) (ud_projects d)
                   (ud_refreshToken d))
      else None
  | None => None
  end.

(** At most one pending record for an email. *)
Definition otp_keyed (w : World) : Prop := NoDup (map otp_email (otps w)).

(** [otp_keyed], [ids_fresh] and [hashed] as relations: what held before
    holds after. *)
Definition keeps_keyed (w w' : World) : Prop := otp_keyed w -> otp_keyed w'.

(** No two stored users share an [_id], and every [_id] in use is below the
    next one to be allocated. *)
Definition ids_fresh (w : World) : Prop :=
  NoDup (map _id (users w)) /\ Forall (fun u => _id u < next_id w) (users w).

Definition keeps_ids (w w' : World) : Prop := ids_fresh w -> ids_fresh w'.

(** No [_id] is handed out twice. *)
Definition id_grows (w w' : World) : Prop := next_id w <= next_id w'.

(** The store after [t] was written as refresh token of the user [id]. *)
Definition store_refreshToken (id : ObjectId) (t : Js.value) (w : World) : World :=
  update_users (fun u => if _id u =? id then with_refreshToken t u else u) w.

(** A username as a query asks for it: trimmed, then in lower case. *)
Definition as_username (X : Externals) (name : string) : string :=
  Js.toLowerCase (unicode_toLowerCase X) (Js.trim name).

(** The query of [loginUser], [{$or: [{username}, {email}]}], as it is
    cast: the username trimmed and in lower case, the email trimmed. *)
Definition login_match (X : Externals) (body : LoginBody) (u : User) : bool :=
  eqb_value (option_map (as_username X) (lb_username body)) (username u)
  || eqb_value (option_map Js.trim (lb_email body)) (email u).

(** The fields [registerUser] checks for blanks, in its order. *)
Definition register_fields (b : RegisterBody) : list Js.value :=
  [rb_username b; rb_fullname b; rb_email b; rb_password b;
   rb_githubId b; rb_position b; rb_description b].

(** The existence query of [registerUser],
    [{$or: [{username}, {email}, {githubId}]}], as it is cast. *)
Definition register_match (X : Externals) (b : RegisterBody) (u : User) : bool :=
  eqb_value (option_map (as_username X) (rb_username b)) (username u)
  || eqb_value (option_map Js.trim (rb_email b)) (email u)
  || eqb_value (option_map Js.trim (rb_githubId b)) (githubId u).

(** [m] answers within [P]: what it returns, when it returns, is in [P]. *)
Definition answers {A} (P : A -> Prop) (m : M A) : Prop :=
  forall w a w', m w = (Ret a, w') -> P a.

(** A user object without the two secret keys, and a response whose user
    objects are all so. *)
Definition no_secrets (o : JObj) : Prop :=
  has_key o "password" = false /\ has_key o "refreshToken" = false.

Definition strips (resp : Response) : Prop :=
  Forall no_secrets (user_objects (data (json resp))).

(** Every stored password is what [bcrypt.hash] gave for some input. *)
Definition hashed (X : Externals) (w : World) : Prop :=
  forall u, In u (users w) ->
    exists p salt, password u = Some (bcrypt_hash X p salt).

Definition keeps_hashed (X : Externals) (w w' : World) : Prop :=
  hashed X w -> hashed X w'.

(** The user a name stands for: the one [User.findOne({username: name})]
    finds, the first whose stored username is the name trimmed and in lower
    case. *)
Definition resolve (X : Externals) (w : World) (name : string) : option User :=
  find (fun u => String.eqb (username u) (as_username X name)) (users w).

(** The owner names of a request: split at commas, each one trimmed. *)
Definition owner_names (ownersUsernames : string) : list string :=
  map Js.trim (Js.split "," ownersUsernames).

(** The creating user's list after the project [p] was pushed. *)
Definition push_project (id p : ObjectId) (l : list User) : list User :=
  map (fun u => if _id u =? id then with_projects (projects u ++ [p]) u else u) l.

(** [name], [repoId], [url], [description] and [domain] are all truthy. *)
Definition project_fields_present (b : ProjectBody) : bool :=
  Js.truthy (pb_name b) && Js.truthy (pb_repoId b) && Js.truthy (pb_url b)
  && Js.truthy (pb_description b) && Js.truthy (pb_domain b).

(** The refresh token in a response, as the next request carries it: the
    cookie of that name, or nothing. *)
Fixpoint cookie_set (name : string) (l : list CookieOp) : Js.value :=
  match l with
  | [] => None
  | cookie n v _ :: r => if String.eqb n name then v else cookie_set name r
  | clearCookie n _ :: r => if String.eqb n name then None else cookie_set name r
  end.

(** The response, when there is one. *)
Definition returned {A} (o : Outcome A) : option A :=
  match o with Ret a => Some a | Throw _ => None end.

(** ** Vocabulary of the further properties *)

(** The user a refresh token stands for, when [refreshAccessToken] and
    [fetchUserData] take it: the token verifies, the user of its [_id] is
    stored, and the token is the one stored on that user. *)
Definition accepted_user (X : Externals) (env : Env) (w : World) (t : string)
    : option User :=
  match jwt_verify X t (REFRESH_TOKEN_SECRET X) (now env) with
  | None => None
  | Some decodedToken =>
      match jwt_id decodedToken with
      | None => None
      | Some id =>
          match find (fun u => _id u =? id) (users w) with
          | Some user => if same_token t (refreshToken user) then Some user else None
          | None => None
          end
      end
  end.

(** The object [fetchUserData] answers with. *)
Definition userValues (user : User) : JObj :=
  [("fullname", JStr (fullname user))]
  ++ key_if_set "profilePic" (profilePic user)
  ++ key_if_set "coverImg" (coverImg user)
  ++ [("username", JStr (username user)); ("email", JStr (email user));
      ("githubId", JStr (githubId user))].

Definition public_keys : list string :=
  ["fullname"; "profilePic"; "coverImg"; "username"; "email"; "githubId"].

(** The stored projects of a list of references, in its order; a reference
    to nothing is skipped. *)
Definition stored_projects (w : World) (ids : list ObjectId) : list Project :=
  somes (map (fun id => find (fun p => p_id p =? id) (projectDocs w)) ids).

(** The owners of a project as [fetchProject] returns them. *)
Definition owner_objects (w : World) (project : Project) : list JObj :=
  map toJSON
    (somes (map (fun id => option_map select_public
                             (find (fun u => _id u =? id) (users w)))
                (p_owners project))).

(** The projects [fetchProject] searches: those of the collection whose
    [_id] is in the user's list, in the order of the collection. *)
Definition projects_of (w : World) (user : User) : list Project :=
  filter (fun p => existsb (Nat.eqb (p_id p)) (projects user)) (projectDocs w).

(** The mail of the contact form. *)
Definition contact_mail (to : string) (body : ContactBody) : Mail :=
  mkMail to "Contact Form Submission" (contact_html body).

(** What identifies a user and lets it log in. *)
Definition credentials (u : User)
    : ObjectId * string * string * string * string * option string :=
  (_id u, username u, fullname u, email u, githubId u, password u).

(** Relations that hold across every write but the insertion of a user,
    where an update of stored users need only keep their [credentials]. *)
Class StaysCredentials (R : World -> World -> Prop) : Prop := {
  sc_core :: StaysCore R;
  sc_otps :: StaysOtps R;
  sc_insert_project : forall doc w, R w (insert_project doc w);
  sc_update : forall (g : User -> User) w,
    (forall u, credentials (g u) = credentials u) -> R w (update_users g w)
}.

(** The users are the same, in the same order, up to the fields outside
    their credentials. *)
Definition same_credentials (w w' : World) : Prop :=
  map credentials (users w') = map credentials (users w).

(** The paths the schema requires have a value. *)
Definition required_present (u : User) : Prop :=
  username u <> "" /\ fullname u <> "" /\ email u <> "" /\ githubId u <> ""
  /\ password u <> None.

(** What the schema of [User] asks of the collection: no two users with one
    username or one email, and the required paths present. *)
Definition schema_holds (w : World) : Prop :=
  NoDup (map username (users w)) /\ NoDup (map email (users w))
  /\ Forall required_present (users w).

(** The paths of a batch that object storage accepts. *)
Definition taken (X : Externals) (paths : list string) : list string :=
  filter (fun p => match uploadFileToCloudinary X p with
                   | UploadResponse _ => true
                   | _ => false
                   end) paths.

(** The message of the 500 that a rejected upload becomes. *)
Definition upload_failed (kind msg : string) : string :=
  String.append "Error uploading " (String.append kind (String.append ": " msg)).

Module Outage.

(** The services of [Toy.X], with an object storage that rejects the file
    big.mp4. *)
Definition X : Externals :=
  mkExternals (fun s => s) Toy.hash Toy.compare Toy.sign Toy.verify
    (fun path => if String.eqb path "big.mp4" then UploadError "File size too large"
                 else UploadResponse (Some (String.append "https://cdn/" path)))
    (fun _ => true)
    (fun v => match v with Some s => Toy.contains "@" s | None => false end)
    (fun v => Js.truthy v)
    (fun _ => true)
    "access-secret" "15m" "refresh-secret" "10d" "noreply@example.org".

End Outage.

(** * Properties *)

(** ** The string functions on small inputs *)

Example trim_both_ends : Js.trim "  a b  " = "a b".
Proof. reflexivity. Qed.

Example trim_blank : Js.trim "   " = "".
Proof. reflexivity. Qed.

(** A no-break space, an ideographic space and a byte order mark are white
    space as the tab is; a zero width space (U+200B) is not. *)
Example trim_beyond_ascii :
  Js.trim (String.concat "a"
             [String.append (Js.bytes [194; 160]) (Js.bytes [9]);
              String.append (Js.bytes [227; 128; 128]) (Js.bytes [239; 187; 191])])
  = "a"
  /\ Js.trim (Js.bytes [226; 128; 139]) = Js.bytes [226; 128; 139].
Proof. split; reflexivity. Qed.

Example split_keeps_empty_pieces : Js.split "," "a, b ,,c" = ["a"; " b "; ""; "c"].
Proof. reflexivity. Qed.

Example split_of_empty : Js.split "," "" = [""].
Proof. reflexivity. Qed.

Example toLowerCase_letters_only beyond :
  Js.toLowerCase beyond "Alice-99_Z" = "alice-99_z".
Proof. reflexivity. Qed.

Example toLowerCase_beyond_ascii beyond :
  Js.toLowerCase beyond (Js.bytes [195; 137; 77]) = beyond (Js.bytes [195; 137; 77]).
Proof. reflexivity. Qed.

Example blank_is_not_missing :
  blank (Some " ") = true /\ blank (Some (Js.bytes [194; 160])) = true
  /\ blank None = false.
Proof. repeat split; reflexivity. Qed.

(** ** [trim] removes all the white space at both ends

    [strip] is given as many rounds as the string has bytes, and each round
    removes at least one: what it returns starts with no mark. *)

Lemma drop_prefix_length p s r :
  Js.drop_prefix p s = Some r -> String.length s = String.length p + String.length r.
Proof.
  revert s. induction p as [| a p IH]; intros s Hdrop; simpl in *.
  - injection Hdrop as <-. reflexivity.
  - destruct s as [| b s]; [discriminate |].
    destruct (Ascii.eqb a b); [| discriminate].
    simpl. rewrite (IH _ Hdrop). reflexivity.
Qed.

Lemma drop_first_shorter marks s r :
  Forall (fun p => p <> "") marks ->
  Js.drop_first marks s = Some r -> String.length r < String.length s.
Proof.
  intros Hmarks. induction Hmarks as [| p others Hp _ IH]; simpl; [discriminate |].
  destruct (Js.drop_prefix p s) as [r' |] eqn:E; [| exact IH].
  intros [= <-]. apply drop_prefix_length in E.
  destruct p; [congruence | simpl in E; lia].
Qed.

Lemma strip_done marks n s :
  Forall (fun p => p <> "") marks -> String.length s <= n ->
  Js.drop_first marks (Js.strip marks n s) = None.
Proof.
  intro Hmarks. revert s. induction n as [| n IH]; intros s Hn; simpl.
  - destruct s; [| simpl in Hn; lia].
    clear Hn. induction Hmarks as [| p others Hp _ IHm]; simpl; [reflexivity |].
    destruct p; [congruence | exact IHm].
  - destruct (Js.drop_first marks s) as [r |] eqn:E; [| exact E].
    apply IH. apply (drop_first_shorter _ _ _ Hmarks) in E. lia.
Qed.

Lemma white_space_marks :
  Forall (fun p => p <> "") Js.white_space
  /\ Forall (fun p => p <> "") (map Js.reverse Js.white_space).
Proof. split; repeat constructor; discriminate. Qed.

Lemma trimStart_done s : Js.drop_first Js.white_space (Js.trimStart s) = None.
Proof. apply strip_done; [apply white_space_marks | apply Nat.le_refl]. Qed.

Lemma reverse_length s : String.length (Js.reverse s) = String.length s.
Proof.
  unfold Js.reverse.
  rewrite <- (string_of_list_ascii_of_string s) at 2.
  generalize (list_ascii_of_string s). intro l.
  assert (Hlen : forall k, String.length (string_of_list_ascii k) = List.length k)
    by (induction k; simpl; congruence).
  rewrite !Hlen. apply length_rev.
Qed.

Lemma reverse_reverse s : Js.reverse (Js.reverse s) = s.
Proof.
  unfold Js.reverse. rewrite list_ascii_of_string_of_list_ascii, rev_involutive.
  apply string_of_list_ascii_of_string.
Qed.

(** Read backwards, what [trimEnd] returns starts with no mark read
    backwards: it ends with no white space. *)
Lemma trimEnd_done s :
  Js.drop_first (map Js.reverse Js.white_space) (Js.reverse (Js.trimEnd s)) = None.
Proof.
  unfold Js.trimEnd. rewrite reverse_reverse.
  apply strip_done; [apply white_space_marks |]. rewrite reverse_length. apply Nat.le_refl.
Qed.

(** ** Relations every step of a controller stays within *)

Section Keeps.

Context (R : World -> World -> Prop) `{StaysCore R}.
Variable X : Externals.

Lemma keeps_ret {A} (a : A) : keeps R (ret a).
Proof. intro w. apply stays_refl. Qed.

Lemma keeps_throw {A} (e : Exn) : keeps R (@throw A e).
Proof. intro w. apply stays_refl. Qed.

Lemma keeps_throwApi {A} (n : nat) (s : string) : keeps R (@throwApi A n s).
Proof. apply keeps_throw. Qed.

Lemma keeps_gets {A} (f : World -> A) : keeps R (gets f).
Proof. intro w. apply stays_refl. Qed.

Lemma keeps_throw_if (c : bool) (e : Exn) : keeps R (throw_if c e).
Proof. destruct c; [apply keeps_throw | apply keeps_ret]. Qed.

Lemma keeps_rethrow {A} (msg : string) (e : Exn) : keeps R (@rethrow A msg e).
Proof. destruct e; apply keeps_throw. Qed.

Lemma keeps_modify (f : World -> World) :
  (forall w, R w (f w)) -> keeps R (modify f).
Proof. intros Hf w. apply Hf. Qed.

Lemma keeps_bind {A B} (m : M A) (k : A -> M B) :
  keeps R m -> (forall a, keeps R (k a)) -> keeps R (bind m k).
Proof.
  intros Hm Hk w. unfold bind.
  specialize (Hm w). destruct (m w) as [[a | e] w1]; simpl in *; auto.
  eapply stays_trans; [exact Hm | apply Hk].
Qed.

Lemma keeps_try_catch {A} (m : M A) (h : Exn -> M A) :
  keeps R m -> (forall e, keeps R (h e)) -> keeps R (try_catch m h).
Proof.
  intros Hm Hh w. unfold try_catch.
  specialize (Hm w). destruct (m w) as [[a | e] w1]; simpl in *; auto.
  eapply stays_trans; [exact Hm | apply Hh].
Qed.

Lemma keeps_Promise_all {A B} (f : A -> M B) (l : list A) :
  (forall a, keeps R (f a)) -> keeps R (Promise_all f l).
Proof.
  intros Hf. induction l as [| a r IH]; intro w; simpl.
  - apply stays_refl.
  - pose proof (Hf a w) as Ha.
    destruct (f a w) as [[b | e] w1]; simpl in *.
    + pose proof (IH w1) as Hr.
      destruct (Promise_all f r w1) as [[bs | e] w2]; simpl in *;
        eapply stays_trans; eauto.
    + eapply stays_trans; [exact Ha | apply IH].
Qed.

Lemma keeps_User_findOne p : keeps R (User_findOne p).
Proof. apply keeps_gets. Qed.

Lemma keeps_User_findById id : keeps R (User_findById id).
Proof. destruct id; [apply keeps_gets | apply keeps_ret]. Qed.

Lemma keeps_bump : keeps R (modify bump_id).
Proof. apply keeps_modify, stays_bump. Qed.

Lemma keeps_upload path : keeps R (upload X path).
Proof.
  unfold upload. destruct (uploadFileToCloudinary X path).
  - apply keeps_bind; [apply keeps_modify, stays_cloud | intro; apply keeps_ret].
  - apply keeps_ret.
  - apply keeps_throw.
Qed.

Lemma keeps_transporter_sendMail m : keeps R (transporter_sendMail X m).
Proof.
  unfold transporter_sendMail. destruct (sendMail X m).
  - apply keeps_modify, stays_outbox.
  - apply keeps_throw.
Qed.

End Keeps.

Create HintDb keeps.

#[export] Hint Resolve stays_core keeps_ret keeps_throwApi keeps_throw keeps_gets
  keeps_throw_if keeps_rethrow keeps_User_findOne keeps_User_findById keeps_bump
  keeps_upload keeps_transporter_sendMail : keeps.

#[export] Hint Extern 1 (StaysCore _) => exact _ : keeps.
#[export] Hint Extern 1 (StaysOtps _) => exact _ : keeps.
#[export] Hint Extern 1 (Stays _) => exact _ : keeps.
#[export] Hint Extern 1 (StaysInsert _) => exact _ : keeps.

(** One step of a proof that a computation keeps a relation: a known
    computation, or a [bind], a [try]/[catch], a [Promise.all] or a branch
    taken apart. *)
Ltac keeps_step :=
  first
    [ match goal with
      | |- Stays _ => first [assumption | exact _]
      | |- StaysCore _ => first [assumption | exact _]
      | |- StaysOtps _ => first [assumption | exact _]
      | |- StaysInsert _ => first [assumption | exact _]
      end
    | solve [auto 4 with keeps nocore]
    | apply keeps_bind; [.. | intro]
    | apply keeps_try_catch; [.. | intro]
    | apply keeps_Promise_all; [.. | intro]
    | match goal with
      | |- keeps _ (match ?x with _ => _ end) => destruct x
      end ].

Ltac keeps_all := cbv zeta; repeat keeps_step.

Section KeepsOtps.

Context (R : World -> World -> Prop) `{StaysCore R} `{StaysOtps R}.
Variable X : Externals.

Lemma keeps_put_otp o : keeps R (modify (put_otp o)).
Proof. intro w. apply stays_put_otp. Qed.

Lemma keeps_OtpVerification_findByIdAndDelete id :
  keeps R (OtpVerification_findByIdAndDelete id).
Proof. intro w. apply stays_delete_otp. Qed.

#[local] Hint Resolve keeps_put_otp : keeps.

Lemma keeps_sendOtpVerificationEmail env d :
  keeps R (sendOtpVerificationEmail X env d).
Proof. unfold sendOtpVerificationEmail. keeps_all. Qed.

End KeepsOtps.

#[export] Hint Resolve keeps_put_otp keeps_OtpVerification_findByIdAndDelete
  keeps_sendOtpVerificationEmail : keeps.

Section KeepsWrites.

Context (R : World -> World -> Prop) `{Stays R}.
Variable X : Externals.

Lemma password_not_changed (changes : list Change) :
  existsb (String.eqb "password") (map change_path changes) = false.
Proof.
  induction changes as [| c r IH]; [reflexivity |].
  cbn [map existsb]. rewrite IH. destruct c; reflexivity.
Qed.

Lemma apply_changes_same (changes : list Change) (u : User) :
  let u' := fold_left (fun u c => apply_change c u) changes u in
  _id u' = _id u /\ password u' = password u.
Proof.
  revert u. induction changes as [| c r IH]; intro u; simpl; [auto |].
  destruct (IH (apply_change c u)) as [Hi Hp].
  rewrite Hi, Hp. destruct c; auto.
Qed.

Lemma keeps_update (g : User -> User) :
  (forall u, _id (g u) = _id u /\ password (g u) = password u) ->
  keeps R (modify (update_users g)).
Proof. intros Hg w. apply stays_update. exact Hg. Qed.

Lemma keeps_User_save salt doc changes : keeps R (User_save X salt doc changes).
Proof.
  unfold User_save, pre_save. rewrite password_not_changed. simpl.
  keeps_all. apply keeps_update. intro v.
  destruct (_id v =? _id doc); [apply apply_changes_same | auto].
Qed.

Lemma keeps_User_findByIdAndUpdate_refreshToken id v :
  keeps R (User_findByIdAndUpdate_refreshToken id v).
Proof.
  unfold User_findByIdAndUpdate_refreshToken.
  destruct v as [t |]; [| intro w; apply stays_refl].
  apply keeps_update. intro u. destruct (_id u =? id); auto.
Qed.

#[local] Hint Resolve keeps_User_save : keeps.

Lemma keeps_generateAccessTokenAndRefreshToken env id :
  keeps R (generateAccessTokenAndRefreshToken X env id).
Proof. unfold generateAccessTokenAndRefreshToken. keeps_all. Qed.

Lemma keeps_Project_create mk : keeps R (Project_create X mk).
Proof.
  unfold Project_create. keeps_all. intro w. apply stays_insert_project.
Qed.

End KeepsWrites.

#[export] Hint Resolve keeps_User_save keeps_User_findByIdAndUpdate_refreshToken
  keeps_generateAccessTokenAndRefreshToken keeps_Project_create : keeps.

Section KeepsReaders.

Context (R : World -> World -> Prop) `{StaysCore R}.
Variable X : Externals.

Lemma keeps_upload_first field : keeps R (upload_first X field).
Proof. unfold upload_first. keeps_all. Qed.

Lemma keeps_isPasswordCorrect u pw : keeps R (isPasswordCorrect X u pw).
Proof. unfold isPasswordCorrect. keeps_all. Qed.

Lemma keeps_user_of_refreshToken env t : keeps R (user_of_refreshToken X env t).
Proof. unfold user_of_refreshToken. keeps_all. Qed.

#[local] Hint Resolve keeps_user_of_refreshToken : keeps.

Lemma keeps_fetchUserData env req : keeps R (fetchUserData X env req).
Proof. unfold fetchUserData. keeps_all. Qed.

Lemma keeps_upload_or_500 kind path : keeps R (upload_or_500 X kind path).
Proof. unfold upload_or_500. keeps_all. Qed.

#[local] Hint Resolve keeps_upload_or_500 : keeps.

Lemma keeps_upload_each kind field : keeps R (upload_each X kind field).
Proof. unfold upload_each. keeps_all. Qed.

Lemma keeps_find_owner name : keeps R (find_owner X name).
Proof. unfold find_owner, User_findOne_username. keeps_all. Qed.

Lemma keeps_fetchUserProjects name : keeps R (fetchUserProjects X name).
Proof. unfold fetchUserProjects, Project_findById, User_findOne_username. keeps_all. Qed.

Lemma keeps_fetchProject name projectName : keeps R (fetchProject X name projectName).
Proof. unfold fetchProject, Project_find_in, User_findOne_username. keeps_all. Qed.

Lemma keeps_sendEmail name body : keeps R (sendEmail X name body).
Proof. unfold sendEmail, User_findOne_username. keeps_all. Qed.

End KeepsReaders.

#[export] Hint Resolve keeps_upload_first keeps_isPasswordCorrect
  keeps_user_of_refreshToken keeps_fetchUserData keeps_upload_or_500
  keeps_upload_each keeps_find_owner keeps_fetchUserProjects keeps_fetchProject
  keeps_sendEmail : keeps.

Section KeepsRegister.

Context (R : World -> World -> Prop) `{StaysCore R} `{StaysOtps R}.
Variable X : Externals.

Lemma keeps_registerUser env req : keeps R (registerUser X env req).
Proof. unfold registerUser. keeps_all. Qed.

End KeepsRegister.

Section KeepsWriters.

Context (R : World -> World -> Prop) `{Stays R}.
Variable X : Externals.

Lemma keeps_loginUser env body : keeps R (loginUser X env body).
Proof. unfold loginUser. keeps_all. Qed.

Lemma keeps_logoutUser user : keeps R (logoutUser user).
Proof. unfold logoutUser. keeps_all. Qed.

Lemma keeps_refreshAccessToken env req : keeps R (refreshAccessToken X env req).
Proof. unfold refreshAccessToken. keeps_all. Qed.

Lemma keeps_addProject env req : keeps R (addProject X env req).
Proof. unfold addProject. keeps_all. Qed.

End KeepsWriters.

#[export] Hint Resolve keeps_registerUser keeps_loginUser keeps_logoutUser
  keeps_refreshAccessToken keeps_addProject : keeps.

Section KeepsAll.

Context (R : World -> World -> Prop) `{Stays R} `{StaysOtps R} `{StaysInsert R}.
Variable X : Externals.

Lemma keeps_User_create salt d : keeps R (User_create X salt d).
Proof.
  unfold User_create, pre_save. keeps_all.
  intro w. apply stays_insert_user.
Qed.

#[local] Hint Resolve keeps_User_create : keeps.

Lemma keeps_verifyOtp env body : keeps R (verifyOtp X env body).
Proof. unfold verifyOtp, OtpVerification_findOne. keeps_all. Qed.

(** A relation that holds across every kind of write holds across every
    request. *)
Lemma keeps_handle env req : keeps R (handle X env req).
Proof.
  destruct req; simpl; auto using keeps_verifyOtp with keeps.
Qed.

End KeepsAll.

#[export] Instance Stays_same_ids : Stays same_ids.
Proof.
  split; [split |..]; unfold same_ids; intros; simpl; try reflexivity.
  - congruence.
  - rewrite map_map. apply map_ext. intro u. apply H.
Qed.

#[export] Instance StaysOtps_same_ids : StaysOtps same_ids.
Proof. split; unfold same_ids; intros; reflexivity. Qed.

#[export] Instance StaysCore_same_docs : StaysCore same_docs.
Proof.
  split; unfold same_docs; intros; simpl; auto.
  destruct H, H0. split; congruence.
Qed.

#[export] Instance StaysOtps_same_docs : StaysOtps same_docs.
Proof. split; unfold same_docs; intros; simpl; auto. Qed.

(** ** Running a computation backwards *)

Lemma bind_Ret {A B} (m : M A) (k : A -> M B) w b w' :
  bind m k w = (Ret b, w') ->
  exists a w1, m w = (Ret a, w1) /\ k a w1 = (Ret b, w').
Proof.
  unfold bind. destruct (m w) as [[a | e] w1]; [eauto | discriminate].
Qed.

Lemma try_catch_rethrow_Ret {A} (m : M A) msg w (a : A) w' :
  try_catch m (rethrow msg) w = (Ret a, w') -> m w = (Ret a, w').
Proof.
  unfold try_catch. destruct (m w) as [[a0 | e] w1]; [auto |].
  destruct e; discriminate.
Qed.

(** ** [User.create] *)

(** [insertable] in the steps of [User.create]: the document is built,
    validated, its password hashed, and the unique indexes are checked. *)
Lemma insertable_steps X salt d w :
  insertable X salt d w
  = let doc := new_User X (next_id w) d in
    if validate_User doc then
      match password doc with
      | Some p =>
          let doc' := with_password (Some (bcrypt_hash X p salt)) doc in
          if duplicate_key doc' (users w) then None else Some doc'
      | None => None
      end
    else None.
Proof.
  unfold insertable, validate_User, duplicate_key, new_User, set_username, with_password.
  cbv zeta. cbn [_id username fullname email githubId password profilePic watchList
                 coverImg techStack domains projects refreshToken].
  destruct (ud_password d) as [p |]; cbn [Js.truthy].
  - repeat match goal with
           | |- context [negb (String.eqb ?a "")] => destruct (negb (String.eqb a ""))
           end; cbn [andb]; try reflexivity.
    match goal with |- context [existsb ?test ?l] => destruct (existsb test l) end;
      reflexivity.
  - rewrite andb_false_r. reflexivity.
Qed.

Lemma User_create_Some X salt d w doc :
  insertable X salt d w = Some doc ->
  User_create X salt d w = (Ret doc, set_users (fun l => l ++ [doc]) (bump_id w)).
Proof.
  rewrite insertable_steps. unfold User_create, bind, gets, modify, throw_if, pre_save.
  simpl. destruct (validate_User (new_User X (next_id w) d)) eqn:V; [| discriminate].
  simpl. destruct (ud_password d) as [p |]; [| discriminate]. simpl.
  match goal with |- context [duplicate_key ?u ?l] => destruct (duplicate_key u l) end;
    [discriminate |].
  intros [= <-]. reflexivity.
Qed.

Lemma User_create_None X salt d w :
  insertable X salt d w = None ->
  exists what, User_create X salt d w = (Throw (Other what), bump_id w).
Proof.
  rewrite insertable_steps. unfold User_create, bind, gets, modify, throw_if, pre_save.
  simpl. destruct (validate_User (new_User X (next_id w) d)) eqn:V; simpl.
  - destruct (ud_password d) as [p |]; simpl.
    + match goal with |- context [duplicate_key ?u ?l] => destruct (duplicate_key u l) end;
        [| discriminate].
      intros _. eexists. reflexivity.
    + intros _. eexists. reflexivity.
  - intros _. eexists. reflexivity.
Qed.

Lemma insertable_password X salt d w doc :
  insertable X salt d w = Some doc ->
  exists p, ud_password d = Some p /\ password doc = Some (bcrypt_hash X p salt).
Proof.
  rewrite insertable_steps. simpl.
  destruct (validate_User _); [| discriminate].
  destruct (ud_password d) as [p |]; [| discriminate].
  match goal with |- context [duplicate_key ?u ?l] => destruct (duplicate_key u l) end;
    [discriminate |].
  intros [= <-]. exists p. split; reflexivity.
Qed.

Lemma insertable_id X salt d w doc :
  insertable X salt d w = Some doc -> _id doc = next_id w.
Proof.
  rewrite insertable_steps. simpl.
  destruct (validate_User _); [| discriminate].
  destruct (ud_password d) as [p |]; [| discriminate].
  match goal with |- context [duplicate_key ?u ?l] => destruct (duplicate_key u l) end;
    [discriminate |].
  intros [= <-]. reflexivity.
Qed.

Lemma truthy_Some (s : string) : s <> "" -> Js.truthy (Some s) = true.
Proof.
  intro Hs. unfold Js.truthy. destruct (String.eqb_spec s ""); [contradiction | reflexivity].
Qed.

(** Unfolds the monad and the collection reads, and nothing else. *)
Ltac run_monad :=
  cbv beta iota zeta delta
    [try_catch bind throw_if ret throw gets modify throwApi rethrow cast
     set_username as_username
     User_findOne User_findOne_username User_findById OtpVerification_findOne
     OtpVerification_findByIdAndDelete User_findByIdAndUpdate_refreshToken].

(** ** [verifyOtp], case by case *)

Lemma verifyOtp_outcomes X env body otp mail d w :
  vb_otp body = Some otp -> otp <> "" ->
  vb_userData body = Some d -> ud_email d = Some mail -> mail <> "" ->
  match find (fun o => String.eqb (otp_email o) mail) (otps w) with
  | None =>
      verifyOtp X env body w
      = (Throw (Api (mkApiError 404 "User not found in database")), w)
  | Some otpVer =>
      if bcrypt_compare X otp (otp_otp otpVer) then
        let w1 := delete_otp (otp_id otpVer) w in
        match insertable X (genSalt env) d w1 with
        | Some newUser =>
            verifyOtp X env body w
            = (Ret (mkResponse 200 []
                      (new_ApiResponse 200 (DUser (toJSON newUser)) "OTP verified")),
               set_users (fun l => l ++ [newUser]) (bump_id w1))
        | None =>
            verifyOtp X env body w
            = (Throw (Api (mkApiError 500 "Verification failed. Please try again.")),
               bump_id w1)
        end
      else
        verifyOtp X env body w = (Throw (Api (mkApiError 400 "Wrong OTP")), w)
  end.
Proof.
  intros Hotp Hne Hd Hmail Hmne.
  unfold verifyOtp. rewrite Hotp, Hd, Hmail. cbn [Js.or_empty].
  rewrite !truthy_Some by assumption.
  run_monad. cbn [negb orb].
  destruct (find _ (otps w)) as [otpVer |]; [| reflexivity].
  destruct (bcrypt_compare X otp (otp_otp otpVer)); cbn [negb]; [| reflexivity].
  fold (delete_otp (otp_id otpVer) w).
  set (w1 := delete_otp (otp_id otpVer) w).
  destruct (insertable X (genSalt env) d w1) as [newUser |] eqn:I.
  - rewrite (User_create_Some _ _ _ _ _ I). reflexivity.
  - destruct (User_create_None _ _ _ _ I) as [what ->]. reflexivity.
Qed.

(** Whatever [verifyOtp] is sent, it leaves the users as they were or
    answers 200 with one user appended. *)
Lemma verifyOtp_users X env body w :
  users (snd (verifyOtp X env body w)) = users w
  \/ exists newUser w',
       verifyOtp X env body w
       = (Ret (mkResponse 200 []
                 (new_ApiResponse 200 (DUser (toJSON newUser)) "OTP verified")), w')
       /\ users w' = users w ++ [newUser].
Proof.
  unfold verifyOtp. run_monad.
  destruct (negb (Js.truthy (vb_otp body)) || negb (Js.truthy _)); [left; reflexivity |].
  destruct (find _ (otps w)) as [otpVer |]; [| left; reflexivity].
  destruct (negb (bcrypt_compare X _ _)); [left; reflexivity |].
  destruct (vb_userData body) as [d |]; [| left; reflexivity].
  fold (delete_otp (otp_id otpVer) w).
  set (w1 := delete_otp (otp_id otpVer) w).
  destruct (insertable X (genSalt env) d w1) as [newUser |] eqn:I.
  - rewrite (User_create_Some _ _ _ _ _ I). right.
    exists newUser. eexists. split; reflexivity.
  - destruct (User_create_None _ _ _ _ I) as [what ->]. left. reflexivity.
Qed.

(** What a successful [verifyOtp] has done: one user inserted, whose stored
    password is the hash of the one in the payload, and that document
    returned as it is stored. *)
Lemma verifyOtp_created X env body w resp w' :
  verifyOtp X env body w = (Ret resp, w') ->
  exists d p newUser,
    vb_userData body = Some d /\ ud_password d = Some p
    /\ resp = mkResponse 200 []
                (new_ApiResponse 200 (DUser (toJSON newUser)) "OTP verified")
    /\ users w' = users w ++ [newUser]
    /\ password newUser = Some (bcrypt_hash X p (genSalt env))
    /\ _id newUser = next_id w /\ next_id w' = S (next_id w).
Proof.
  unfold verifyOtp. run_monad.
  destruct (negb (Js.truthy (vb_otp body)) || negb (Js.truthy _)); [discriminate |].
  destruct (find _ (otps w)) as [otpVer |]; [| discriminate].
  destruct (negb (bcrypt_compare X _ _)); [discriminate |].
  destruct (vb_userData body) as [d |]; [| discriminate].
  fold (delete_otp (otp_id otpVer) w).
  set (w1 := delete_otp (otp_id otpVer) w).
  destruct (insertable X (genSalt env) d w1) as [newUser |] eqn:I.
  - rewrite (User_create_Some _ _ _ _ _ I). intros [= <- <-].
    destruct (insertable_password _ _ _ _ _ I) as (p & Hp & Hh).
    exists d, p, newUser. repeat split; auto.
    apply (insertable_id _ _ _ _ _ I).
  - destruct (User_create_None _ _ _ _ I) as [what ->]. discriminate.
Qed.


(** ** C2: the OTP gate *)




(** ** The OTP store is keyed by email *)

(** Dropping records keeps a store keyed. *)
Lemma keyed_filter (keep : Otp -> bool) (l : list Otp) :
  NoDup (map otp_email l) -> NoDup (map otp_email (filter keep l)).
Proof.
  induction l as [| o r IH]; simpl; intros Hnd; [constructor |].
  inversion Hnd as [| ? ? Hnotin Hnd']; subst.
  destruct (keep o); simpl; [| auto].
  constructor; [| auto].
  intro Hin. apply Hnotin. apply in_map_iff in Hin.
  destruct Hin as (x & Hx & Hf). apply filter_In in Hf.
  apply in_map_iff. exists x. tauto.
Qed.

(** In a keyed store two records for one email are one record. *)
Lemma keyed_same (l : list Otp) (a b : Otp) :
  NoDup (map otp_email l) -> In a l -> In b l -> otp_email a = otp_email b ->
  a = b.
Proof.
  induction l as [| c r IH]; simpl; intros Hnd Ha Hb Hf; [contradiction |].
  inversion Hnd as [| ? ? Hnotin Hnd']; subst.
  destruct Ha as [-> | Ha], Hb as [-> | Hb]; auto.
  - elim Hnotin. rewrite Hf. apply in_map. exact Hb.
  - elim Hnotin. rewrite <- Hf. apply in_map. exact Ha.
Qed.

#[export] Instance Stays_keeps_keyed : Stays keeps_keyed.
Proof. split; [split |..]; unfold keeps_keyed, otp_keyed; intros; simpl; auto. Qed.

#[export] Instance StaysInsert_keeps_keyed : StaysInsert keeps_keyed.
Proof. split; unfold keeps_keyed, otp_keyed; intros; simpl; auto. Qed.

#[export] Instance StaysOtps_keeps_keyed : StaysOtps keeps_keyed.
Proof.
  split; unfold keeps_keyed, otp_keyed; intros; simpl.
  - rewrite map_app. simpl.
    apply NoDup_app.
    + apply keyed_filter. assumption.
    + constructor; [intros [] | constructor].
    + intros mail Hin [<- | []]. apply in_map_iff in Hin.
      destruct Hin as (x & Hx & Hf). apply filter_In in Hf.
      destruct Hf as [_ Hne]. rewrite Hx, String.eqb_refl in Hne. discriminate.
  - apply keyed_filter. assumption.
Qed.

(** Every request keeps the OTP store keyed by email. *)
Lemma otp_keyed_handle X env req w :
  otp_keyed w -> otp_keyed (snd (handle X env req w)).
Proof. apply (keeps_handle keeps_keyed). Qed.

Lemma otp_keyed_one mail otpVer w :
  otp_keyed w ->
  find (fun o => String.eqb (otp_email o) mail) (otps w) = Some otpVer ->
  forall o, In o (otps w) -> otp_email o = mail -> otp_id o = otp_id otpVer.
Proof.
  intros Hkey Hfind o Hin Hmail.
  apply find_some in Hfind. destruct Hfind as [Hin' Hm].
  apply String.eqb_eq in Hm.
  rewrite (keyed_same (otps w) o otpVer Hkey Hin Hin'); congruence.
Qed.

(** ** C10: the code is consumed before the user is created *)

Lemma deleted_otp_gone id (l : list Otp) o :
  In o (filter (fun o => negb (otp_id o =? id)) l) -> otp_id o <> id.
Proof.
  intros Hin. apply filter_In in Hin. destruct Hin as [_ Hne].
  intro E. rewrite E, Nat.eqb_refl in Hne. discriminate.
Qed.

Lemma find_after_delete mail id (l : list Otp) :
  (forall o, In o l -> otp_email o = mail -> otp_id o = id) ->
  find (fun o => String.eqb (otp_email o) mail)
    (filter (fun o => negb (otp_id o =? id)) l) = None.
Proof.
  intros Hkey.
  destruct (find _ (filter _ l)) as [o |] eqn:F; [| reflexivity].
  apply find_some in F. destruct F as [Hin Hm].
  apply String.eqb_eq in Hm.
  pose proof (deleted_otp_gone _ _ _ Hin) as Hne.
  apply filter_In in Hin. destruct Hin as [Hin _].
  elim Hne. apply Hkey; assumption.
Qed.

(** C10.  On an OTP store keyed by email (which every request keeps so):
    when the submitted code matches the pending record and the User
    creation step then fails, the request fails with 500, no User is
    created, and the OTP record is gone: the OTP store is not what it was,
    and a retry with the same code fails with 404, at any later time and as
    often as it is tried (the retry changes nothing). *)
Theorem verifyOtp_consumes_the_code_first
    (X : Externals) (env env' : Env) (body : VerifyBody)
    (otp mail : string) (d : UserData) (otpVer : Otp) (w : World) :
  vb_otp body = Some otp -> otp <> "" ->
  vb_userData body = Some d -> ud_email d = Some mail -> mail <> "" ->
  otp_keyed w ->
  find (fun o => String.eqb (otp_email o) mail) (otps w) = Some otpVer ->
  bcrypt_compare X otp (otp_otp otpVer) = true ->
  insertable X (genSalt env) d (delete_otp (otp_id otpVer) w) = None ->
  let w' := snd (verifyOtp X env body w) in
  fst (verifyOtp X env body w)
  = Throw (Api (mkApiError 500 "Verification failed. Please try again."))
  /\ users w' = users w
  /\ otps w' = filter (fun o => negb (otp_id o =? otp_id otpVer)) (otps w)
  /\ ~ In otpVer (otps w')
  /\ otps w' <> otps w
  /\ verifyOtp X env' body w'
     = (Throw (Api (mkApiError 404 "User not found in database")), w').
Proof.
  intros Hotp Hne Hd Hmail Hmne Hkeyed Hfind Hcmp Hfail.
  pose proof (otp_keyed_one _ _ _ Hkeyed Hfind) as Hkey.
  pose proof (verifyOtp_outcomes X env body otp mail d w Hotp Hne Hd Hmail Hmne) as Hrun.
  rewrite Hfind, Hcmp in Hrun. cbv zeta in Hrun. rewrite Hfail in Hrun.
  rewrite Hrun. cbn [fst snd].
  assert (Hgone : ~ In otpVer (otps (bump_id (delete_otp (otp_id otpVer) w)))).
  { simpl. intro Hin. apply deleted_otp_gone in Hin. congruence. }
  repeat split; try reflexivity; try assumption.
  - intro E. apply Hgone. rewrite E. apply find_some in Hfind. apply Hfind.
  - pose proof (verifyOtp_outcomes X env' body otp mail d
                  (bump_id (delete_otp (otp_id otpVer) w)) Hotp Hne Hd Hmail Hmne) as Hretry.
    simpl otps in Hretry. rewrite find_after_delete in Hretry by assumption.
    exact Hretry.
Qed.

Lemma verifyOtp_consumes_the_code_first_witness :
  let w' := snd (verifyOtp Toy.X (Toy.at_time 4) Scenario.verify_carol
                   Scenario.overtaken) in
  fst (verifyOtp Toy.X (Toy.at_time 4) Scenario.verify_carol Scenario.overtaken)
  = Throw (Api (mkApiError 500 "Verification failed. Please try again."))
  /\ users w' = users Scenario.overtaken
  /\ otps w' = filter (fun o => negb (otp_id o =? 1)) (otps Scenario.overtaken)
  /\ ~ In (mkOtp 1 "carol@example.org" "$2b$salt$482913") (otps w')
  /\ otps w' <> otps Scenario.overtaken
  /\ verifyOtp Toy.X (Toy.at_time 9) Scenario.verify_carol w'
     = (Throw (Api (mkApiError 404 "User not found in database")), w').
Proof.
  apply (verifyOtp_consumes_the_code_first Toy.X (Toy.at_time 4) (Toy.at_time 9)
           Scenario.verify_carol "482913" "carol@example.org"
           Scenario.carol_payload
           (mkOtp 1 "carol@example.org" "$2b$salt$482913") Scenario.overtaken).
  - reflexivity.
  - discriminate.
  - reflexivity.
  - reflexivity.
  - discriminate.
  - unfold otp_keyed. simpl. constructor; [intros [] | constructor].
  - reflexivity.
  - reflexivity.
  - reflexivity.
Defined.

(** ** C3: logout *)

(** C3 fails by a slip of the code.  A logout request of an authenticated
    user answers 200 with a success body and clears the [refreshToken] and
    the [accessToken] cookie, but it leaves the store as it found it: the
    update sets [refreshToken] to [undefined], a key that is removed from the
    update, so the refresh token stays on the User record.  After Alice's
    logout her token is still stored, and a refresh with it answers 200. *)
Theorem logoutUser_leaves_the_stored_token (user : User) (w : World) :
  logoutUser (Some user) w
  = (Ret (mkResponse 200
            [clearCookie "refreshToken" (mkCookieOption true true);
             clearCookie "accessToken" (mkCookieOption true true)]
            (mkApiResponse 200 DEmpty "User Logged Out Successfully" true)),
     w)
  /\ let after := snd (logoutUser (Some Scenario.alice) Scenario.logged_in) in
     map refreshToken (users after) = [Some "refresh-secret.1...3"]
     /\ option_map status
          (returned (fst (refreshAccessToken Toy.X (Toy.at_time 5)
                            (mkTokenReq (Some "refresh-secret.1...3") None) after)))
        = Some 200.
Proof. split; [reflexivity |]. cbv zeta. split; reflexivity. Qed.

(** ** The [_id]s of the users are unique *)

#[export] Instance Stays_id_grows : Stays id_grows.
Proof. split; [split |..]; unfold id_grows; intros; simpl; lia. Qed.

#[export] Instance StaysOtps_id_grows : StaysOtps id_grows.
Proof. split; unfold id_grows; intros; simpl; lia. Qed.

#[export] Instance StaysInsert_id_grows : StaysInsert id_grows.
Proof. split; unfold id_grows; intros; simpl; lia. Qed.

#[export] Instance Stays_keeps_ids : Stays keeps_ids.
Proof.
  split; [split |..]; unfold keeps_ids, ids_fresh; intros; simpl; auto.
  - destruct H as [Hnd Hlt]. split; [exact Hnd |].
    eapply Forall_impl; [| exact Hlt]. simpl. intros; lia.
  - destruct H0 as [Hnd Hlt]. split.
    + rewrite map_map.
      rewrite (map_ext (fun u => _id (g u)) _id) by (intro u; apply H). exact Hnd.
    + apply Forall_forall. intros u Hin. apply in_map_iff in Hin.
      destruct Hin as (v & <- & Hv). destruct (H v) as [-> _].
      rewrite Forall_forall in Hlt. auto.
Qed.

#[export] Instance StaysOtps_keeps_ids : StaysOtps keeps_ids.
Proof. split; unfold keeps_ids, ids_fresh; intros; simpl; auto. Qed.

(** Every request keeps the [_id]s unique. *)
Lemma ids_fresh_handle X env req w :
  ids_fresh w -> ids_fresh (snd (handle X env req w)).
Proof.
  destruct req as [r | body | b | user | r | r | r | name | name projectName | name b];
    simpl.
  - apply (keeps_registerUser keeps_ids).
  - intros [Hnd Hlt].
    pose proof (keeps_verifyOtp id_grows X env body w) as Hgrow.
    destruct (verifyOtp X env body w) as [[resp | e] w'] eqn:Hrun; cbn [snd] in *.
    + destruct (verifyOtp_created _ _ _ _ _ _ Hrun)
        as (d & p & newUser & _ & _ & _ & Hu & _ & Hid & Hnext).
      unfold ids_fresh. rewrite Hu, Hnext, map_app. simpl. split.
      * apply NoDup_app; [exact Hnd | constructor; [intros [] | constructor] |].
        intros i Hin [<- | []]. apply in_map_iff in Hin.
        destruct Hin as (u & Hi & Hin). rewrite Forall_forall in Hlt.
        specialize (Hlt u Hin). lia.
      * apply Forall_app. split.
        -- eapply Forall_impl; [| exact Hlt]. simpl. intros; lia.
        -- constructor; [lia | constructor].
    + destruct (verifyOtp_users X env body w) as [Hu | (newUser & w1 & Hr & _)].
      * rewrite Hrun in Hu. cbn [snd] in Hu. unfold ids_fresh. rewrite Hu.
        split; [exact Hnd |]. eapply Forall_impl; [| exact Hlt].
        unfold id_grows in Hgrow. simpl. intros; lia.
      * rewrite Hrun in Hr. discriminate.
  - apply (keeps_loginUser keeps_ids).
  - apply (keeps_logoutUser keeps_ids).
  - apply (keeps_refreshAccessToken keeps_ids).
  - apply (keeps_fetchUserData keeps_ids).
  - apply (keeps_addProject keeps_ids).
  - apply (keeps_fetchUserProjects keeps_ids).
  - apply (keeps_fetchProject keeps_ids).
  - apply (keeps_sendEmail keeps_ids).
Qed.

(** ** Token issue *)




(** What the helper does for a user that is stored. *)
Lemma generateAccessTokenAndRefreshToken_found X env id w user :
  find (fun u => _id u =? id) (users w) = Some user ->
  generateAccessTokenAndRefreshToken X env id w
  = (Ret [("accessToken", generateAccessToken X user (now env));
          ("refreshToken", generateRefreshToken X user (now env))],
     store_refreshToken id (Some (generateRefreshToken X user (now env))) w).
Proof.
  intros Hfind.
  assert (Hid : _id user = id).
  { apply find_some in Hfind. apply Nat.eqb_eq, Hfind. }
  unfold generateAccessTokenAndRefreshToken, User_save, pre_save.
  cbn [map change_path existsb String.eqb Ascii.eqb Bool.eqb orb negb fold_left
       apply_change].
  run_monad. rewrite Hfind. rewrite Hid, Hfind. reflexivity.
Qed.

(** ** C5: login *)



(** ** C6 and C8: registration *)

Lemma find_exists {A} (p : A -> bool) (l : list A) (a : A) :
  In a l -> p a = true -> exists b, find p l = Some b.
Proof.
  intros Hin Hp. destruct (find p l) as [b |] eqn:F; [eauto |].
  rewrite (find_none _ _ F _ Hin) in Hp. discriminate.
Qed.

(** The three validation guards, in the order of the code: each answers 400
    and nothing has happened by then. *)
Lemma registerUser_validation X env req w :
  let b := reg_body req in
  (existsb blank (register_fields b) = true ->
   registerUser X env req w
   = (Throw (Api (mkApiError 400 "All fields are required")), w))
  /\ (existsb blank (register_fields b) = false ->
      isValidEmail X (rb_email b) = false ->
      registerUser X env req w
      = (Throw (Api (mkApiError 400 "Email not acceptable")), w))
  /\ (existsb blank (register_fields b) = false ->
      isValidEmail X (rb_email b) = true ->
      isValidGitHubId X (rb_githubId b) = false ->
      registerUser X env req w
      = (Throw (Api (mkApiError 400 "Github ID not acceptable")), w)).
Proof.
  cbv zeta. unfold registerUser, register_fields. repeat split.
  - intros ->. reflexivity.
  - intros -> ->. reflexivity.
  - intros -> -> ->. reflexivity.
Qed.

(** C6, as amended.  For a registration request that passes the field
    validation (no blank field, acceptable email and GitHub handle): when a
    stored user has the submitted username, the submitted email or the
    submitted githubId, each taken as the existence query casts it (trimmed,
    and the username in lower case), registration fails with 409 and the
    world is what it was: no user, no OTP record, no upload, no mail. *)
Theorem registerUser_conflict
    (X : Externals) (env : Env) (req : RegisterReq) (w : World) (u : User) :
  let b := reg_body req in
  existsb blank (register_fields b) = false ->
  isValidEmail X (rb_email b) = true ->
  isValidGitHubId X (rb_githubId b) = true ->
  In u (users w) ->
  option_map (as_username X) (rb_username b) = Some (username u)
  \/ option_map Js.trim (rb_email b) = Some (email u)
  \/ option_map Js.trim (rb_githubId b) = Some (githubId u) ->
  registerUser X env req w
  = (Throw (Api (mkApiError 409 "Username/email/github already exists")), w).
Proof.
  cbv zeta. intros Hblank Hmail Hgh Hin Hsame.
  assert (Hm : register_match X (reg_body req) u = true).
  { unfold register_match.
    destruct Hsame as [E | [E | E]]; rewrite E; cbn [eqb_value];
      rewrite String.eqb_refl, ?orb_true_r; reflexivity. }
  destruct (find_exists _ _ _ Hin Hm) as [v Hv].
  unfold registerUser. fold (register_fields (reg_body req)).
  rewrite Hblank, Hmail, Hgh. run_monad. cbn [negb].
  change (find _ (users w)) with (find (register_match X (reg_body req)) (users w)).
  rewrite Hv. reflexivity.
Qed.

(** Alice is stored as "alice"; a registration under " ALICE" is in
    conflict with her. *)
Lemma registerUser_conflict_witness :
  registerUser Toy.X (Toy.at_time 5)
    (mkRegisterReq
       (mkRegisterBody (Some " ALICE") (Some "Bob B") (Some "bob@example.org")
          (Some "pw") (Some "bob-gh") (Some "dev") (Some "hi")) None)
    Scenario.registered
  = (Throw (Api (mkApiError 409 "Username/email/github already exists")),
     Scenario.registered).
Proof.
  apply (registerUser_conflict Toy.X (Toy.at_time 5) _ Scenario.registered
           (with_password (Some "$2b$salt$s3cret")
              (new_User Toy.X 1 Scenario.alice_payload))).
  - vm_compute. reflexivity.
  - reflexivity.
  - reflexivity.
  - left. vm_compute. reflexivity.
  - left. vm_compute. reflexivity.
Defined.

(** C6 as stated fails: the submitted username is Alice's, and the request
    is answered 400, not 409, because another field is blank. *)
Lemma registerUser_taken_username_blank_fullname :
  let b := mkRegisterBody (Some "alice") (Some "  ") (Some "bob@example.org")
             (Some "pw") (Some "bob-gh") (Some "dev") (Some "hi") in
  map username (users Scenario.registered) = ["alice"]
  /\ registerUser Toy.X (Toy.at_time 5) (mkRegisterReq b None) Scenario.registered
     = (Throw (Api (mkApiError 400 "All fields are required")), Scenario.registered).
Proof. split; reflexivity. Qed.

(** A fullname that is a no-break space is blank: the request is answered
    400 by the first guard, whatever else is wrong with it. *)
Example registerUser_blank_beyond_ascii :
  registerUser Toy.X (Toy.at_time 5)
    (mkRegisterReq
       (mkRegisterBody (Some "alice") (Some (Js.bytes [194; 160])) (Some "not-an-email")
          (Some "pw") (Some "bob-gh") (Some "dev") (Some "hi")) None)
    Scenario.registered
  = (Throw (Api (mkApiError 400 "All fields are required")), Scenario.registered).
Proof. vm_compute. reflexivity. Qed.

(** C8 fails on the code: a request without the [fullname] key, with a
    profile picture, is not answered 400; the picture is uploaded, the OTP
    record written, the mail sent, and the answer is 201. *)
Lemma registerUser_accepts_missing_fullname :
  let b := mkRegisterBody (Some "Bob") None (Some "bob@example.org")
             (Some "pw") (Some "bob-gh") (Some "dev") (Some "hi") in
  let req := mkRegisterReq b (Some (mkRegisterFiles (Some ["/tmp/pic.png"]) None)) in
  let r := registerUser Toy.X (Toy.at_time 5) req Toy.empty in
  option_map status (match fst r with Ret resp => Some resp | Throw _ => None end)
  = Some 201
  /\ cloud (snd r) = ["/tmp/pic.png"]
  /\ otps (snd r) = [mkOtp 0 "bob@example.org" "$2b$salt$482913"]
  /\ outbox (snd r) = [mkMail "bob@example.org" "OTP verification" "482913"].
Proof. vm_compute. repeat split. Qed.

(** ** C4 and C9: the password *)

Lemma toJSON_password (u : User) :
  JObj_get (toJSON u) "password" = option_map JStr (password u).
Proof.
  unfold toJSON.
  destruct (password u), (profilePic u), (coverImg u), (refreshToken u); reflexivity.
Qed.

Lemma verify_alice_runs :
  verifyOtp Toy.X (Toy.at_time 2) Scenario.verify_alice Scenario.pending
  = (Ret (mkResponse 200 []
            (new_ApiResponse 200
               (DUser (toJSON (with_password (Some "$2b$salt$s3cret")
                                 (new_User Toy.X 1 Scenario.alice_payload))))
               "OTP verified")),
     Scenario.registered).
Proof. vm_compute. reflexivity. Qed.

Lemma answers_ret {A} (P : A -> Prop) (a : A) : P a -> answers P (ret a).
Proof. intros Hp w b w' [= <- _]. exact Hp. Qed.

Lemma answers_throw {A} (P : A -> Prop) (e : Exn) : answers P (throw e).
Proof. intros w b w' Hrun. discriminate. Qed.

Lemma answers_rethrow {A} (P : A -> Prop) msg (e : Exn) : answers P (rethrow msg e).
Proof. destruct e; apply answers_throw. Qed.

Lemma answers_bind_with {A B} (Q : A -> Prop) (P : B -> Prop) (m : M A) (k : A -> M B) :
  answers Q m -> (forall a, Q a -> answers P (k a)) -> answers P (bind m k).
Proof.
  intros Hm Hk w b w' Hrun. apply bind_Ret in Hrun.
  destruct Hrun as (a & w1 & Ha & Hb). exact (Hk a (Hm _ _ _ Ha) _ _ _ Hb).
Qed.

Lemma answers_bind {A B} (P : B -> Prop) (m : M A) (k : A -> M B) :
  (forall a, answers P (k a)) -> answers P (bind m k).
Proof.
  intros Hk. apply (answers_bind_with (fun _ => True)); [intros ? ? ? ?; exact I | auto].
Qed.

Lemma answers_try_catch {A} (P : A -> Prop) (m : M A) (h : Exn -> M A) :
  answers P m -> (forall e, answers P (h e)) -> answers P (try_catch m h).
Proof.
  intros Hm Hh w a w' Hrun. unfold try_catch in Hrun.
  destruct (m w) as [[b | e] w1] eqn:E.
  - injection Hrun as <- <-. exact (Hm _ _ _ E).
  - exact (Hh e _ _ _ Hrun).
Qed.

Lemma answers_Promise_all {A B} (Q : B -> Prop) (f : A -> M B) (l : list A) :
  (forall a, answers Q (f a)) -> answers (Forall Q) (Promise_all f l).
Proof.
  intros Hf. induction l as [| a r IH]; intros w bs w' Hrun; simpl in Hrun.
  - injection Hrun as <- _. constructor.
  - destruct (f a w) as [[b | e] w1] eqn:Ea; [| discriminate].
    destruct (Promise_all f r w1) as [[bs' | e] w2] eqn:Er; [| discriminate].
    injection Hrun as <- _. constructor; [exact (Hf _ _ _ _ Ea) | exact (IH _ _ _ Er)].
Qed.

Ltac answers_step :=
  first
    [ apply answers_throw | apply answers_rethrow
    | apply answers_bind; intro
    | apply answers_try_catch; [| intro]
    | match goal with
      | |- answers _ (match ?x with _ => _ end) => destruct x
      | |- answers _ (throwApi _ _) => apply answers_throw
      end ].

Ltac answers_all := cbv zeta; repeat answers_step.

Lemma no_secrets_select_public (u : User) : no_secrets (toJSON (select_public u)).
Proof.
  destruct u as [? ? ? ? ? ? pic ? cov ? ? ? ?].
  destruct pic, cov; split; reflexivity.
Qed.

Lemma strips_loginUser X env body : answers strips (loginUser X env body).
Proof.
  unfold loginUser. answers_all. apply answers_ret. unfold strips. simpl.
  match goal with |- context [option_map _ ?o] => destruct o end; simpl;
    [constructor; [apply no_secrets_select_public | constructor] | constructor].
Qed.

Lemma strips_fetchUserData X env req : answers strips (fetchUserData X env req).
Proof.
  unfold fetchUserData. answers_all. apply answers_ret. unfold strips. simpl.
  constructor; [| constructor].
  match goal with u : User |- _ =>
    destruct u as [? ? ? ? ? ? pic ? cov ? ? ? ?] end.
  destruct pic, cov; split; reflexivity.
Qed.

Lemma strips_fetchProject X name projectName :
  answers strips (fetchProject X name projectName).
Proof.
  unfold fetchProject. apply answers_try_catch; [| intro; apply answers_rethrow].
  apply answers_bind. intros user.
  destruct (option_map select_public user) as [loaded |]; [| apply answers_throw].
  apply answers_bind. intros found. destruct (find _ found) as [project |];
    [| apply answers_throw].
  apply (answers_bind_with
           (Forall (fun o : option User =>
                      forall u, o = Some u -> no_secrets (toJSON u)))).
  - apply answers_Promise_all. intro ownerId.
    apply answers_bind. intro owner. apply answers_ret.
    intros x Hx. destruct owner as [v |]; [| discriminate].
    injection Hx as <-. apply no_secrets_select_public.
  - intros ownerObjects Hall. apply answers_ret. unfold strips. simpl.
    induction Hall as [| o l Ho _ IH]; simpl; [constructor |].
    destruct o as [x |]; simpl; [constructor; auto | exact IH].
Qed.

(** The user objects of the answers of the login and of the endpoints that
    read come without [password] and [refreshToken].  (The answer to a
    registration echoes the payload, password included, and the answer of
    [addProject] carries the owner documents as they were loaded.) *)
Lemma other_answers_strip X env req :
  (forall r, req <> Register r) -> (forall body, req <> VerifyOtp body) ->
  (forall r, req <> AddProject r) ->
  answers strips (handle X env req).
Proof.
  intros Hregister Hverify Hadd.
  destruct req as [r | body | b | user | r | r | r | name | name projectName | name b];
    simpl.
  - elim (Hregister r). reflexivity.
  - elim (Hverify body). reflexivity.
  - apply strips_loginUser.
  - unfold logoutUser. answers_all. apply answers_ret. constructor.
  - unfold refreshAccessToken. answers_all. apply answers_ret. constructor.
  - apply strips_fetchUserData.
  - elim (Hadd r). reflexivity.
  - unfold fetchUserProjects. answers_all; apply answers_ret; constructor.
  - apply strips_fetchProject.
  - unfold sendEmail. answers_all. apply answers_ret. constructor.
Qed.

(** C4 fails on the code: the user object in every verify-otp response has
    the [password] key, holding the stored hash. *)
Theorem verifyOtp_returns_the_password_hash
    (X : Externals) (env : Env) (body : VerifyBody) (w w' : World)
    (resp : Response) :
  verifyOtp X env body w = (Ret resp, w') ->
  exists o h,
    user_objects (data (json resp)) = [o]
    /\ JObj_get o "password" = Some (JStr h)
    /\ exists u, In u (users w') /\ password u = Some h.
Proof.
  intros Hrun.
  destruct (verifyOtp_created _ _ _ _ _ _ Hrun) as (d & p & newUser & _ & _ & -> & Hu & Hp & _).
  exists (toJSON newUser), (bcrypt_hash X p (genSalt env)).
  split; [reflexivity |]. split.
  - rewrite toJSON_password, Hp. reflexivity.
  - exists newUser. split; [| exact Hp].
    rewrite Hu. apply in_or_app. right. left. reflexivity.
Qed.

Lemma verifyOtp_returns_the_password_hash_witness :
  exists o,
    user_objects
      (data (json (mkResponse 200 []
                     (new_ApiResponse 200
                        (DUser (toJSON (with_password (Some "$2b$salt$s3cret")
                                          (new_User Toy.X 1 Scenario.alice_payload))))
                        "OTP verified")))) = [o]
    /\ JObj_get o "password" = Some (JStr "$2b$salt$s3cret").
Proof.
  destruct (verifyOtp_returns_the_password_hash Toy.X (Toy.at_time 2)
              Scenario.verify_alice Scenario.pending Scenario.registered _
              verify_alice_runs)
    as (o & h & Ho & Hk & _).
  exists o. split; [exact Ho |].
  injection Ho as <-. reflexivity.
Defined.

#[export] Instance Stays_keeps_hashed (X : Externals) : Stays (keeps_hashed X).
Proof.
  split; [split |..]; unfold keeps_hashed, hashed; intros; simpl in *; auto.
  match goal with Hin : In _ (map _ _) |- _ => apply in_map_iff in Hin;
    destruct Hin as (v & <- & Hv) end.
  match goal with Hg : forall u, _ /\ _ |- _ => destruct (Hg v) as [_ ->] end.
  auto.
Qed.

#[export] Instance StaysOtps_keeps_hashed (X : Externals) : StaysOtps (keeps_hashed X).
Proof. split; unfold keeps_hashed, hashed; intros; simpl in *; auto. Qed.

Lemma hashed_handle X env req w : hashed X w -> hashed X (snd (handle X env req w)).
Proof.
  destruct req as [r | body | b | user | r | r | r | name | name projectName | name b];
    simpl.
  - apply (keeps_registerUser (keeps_hashed X)).
  - intros Hw.
    destruct (verifyOtp X env body w) as [[resp | e] w'] eqn:Hrun; cbn [snd].
    + destruct (verifyOtp_created _ _ _ _ _ _ Hrun)
        as (d & p & newUser & _ & _ & _ & Hu & Hp & _).
      intros u Hin. rewrite Hu in Hin. apply in_app_or in Hin.
      destruct Hin as [Hin | [<- | []]]; [auto | eauto].
    + destruct (verifyOtp_users X env body w) as [Hu | (newUser & w1 & Hr & _)].
      * rewrite Hrun in Hu. cbn [snd] in Hu. intros u Hin. rewrite Hu in Hin. auto.
      * rewrite Hrun in Hr. discriminate.
  - apply (keeps_loginUser (keeps_hashed X)).
  - apply (keeps_logoutUser (keeps_hashed X)).
  - apply (keeps_refreshAccessToken (keeps_hashed X)).
  - apply (keeps_fetchUserData (keeps_hashed X)).
  - apply (keeps_addProject (keeps_hashed X)).
  - apply (keeps_fetchUserProjects (keeps_hashed X)).
  - apply (keeps_fetchProject (keeps_hashed X)).
  - apply (keeps_sendEmail (keeps_hashed X)).
Qed.

(** C9.  The save hook leaves a document whose password was not modified as
    it is and replaces a modified password by its bcrypt hash; a store
    without users has every password hashed, and every request keeps it so;
    the one write that sets a password, the creation in [verifyOtp], stores
    the hash of the submitted password under the salt drawn for it. *)
Theorem password_is_stored_hashed (X : Externals) :
  (forall salt isModified this,
      isModified "password" = false ->
      pre_save X salt isModified this = ret this)
  /\ (forall salt isModified this p,
         isModified "password" = true -> password this = Some p ->
         pre_save X salt isModified this
         = ret (with_password (Some (bcrypt_hash X p salt)) this))
  /\ (forall w, users w = [] -> hashed X w)
  /\ (forall env req w, hashed X w -> hashed X (snd (handle X env req w)))
  /\ (forall env body w resp w',
         verifyOtp X env body w = (Ret resp, w') ->
         exists d p newUser,
           vb_userData body = Some d /\ ud_password d = Some p
           /\ users w' = users w ++ [newUser]
           /\ password newUser = Some (bcrypt_hash X p (genSalt env))).
Proof.
  repeat split.
  - intros salt isModified this Hm. unfold pre_save. rewrite Hm. reflexivity.
  - intros salt isModified this p Hm Hp. unfold pre_save. rewrite Hm, Hp. reflexivity.
  - intros w Hw u Hin. rewrite Hw in Hin. contradiction.
  - intros. apply hashed_handle. assumption.
  - intros env body w resp w' Hrun.
    destruct (verifyOtp_created _ _ _ _ _ _ Hrun)
      as (d & p & newUser & Hd & Hpw & _ & Hu & Hp & _).
    exists d, p, newUser. auto.
Qed.

Lemma password_is_stored_hashed_witness :
  hashed Toy.X Scenario.registered
  /\ map password (users Scenario.registered) = [Some (Toy.hash "s3cret" "salt")].
Proof.
  split; [| reflexivity].
  destruct (password_is_stored_hashed Toy.X) as (_ & _ & Hempty & Hkeep & _).
  exact (Hkeep (Toy.at_time 2) (VerifyOtp Scenario.verify_alice) Scenario.pending
           (Hempty Scenario.pending eq_refl)).
Defined.

(** ** C7: project creation *)

Lemma find_owner_reads X name w :
  find_owner X name w
  = match resolve X w name with
    | Some u => (Ret u, w)
    | None => (Throw (Api (mkApiError 404 (owner_not_found name))), w)
    end.
Proof.
  unfold find_owner, resolve. run_monad.
  destruct (find _ (users w)); reflexivity.
Qed.

(** All owners are found, in order, or the first name without a user gives
    the 404; either way nothing is written. *)
Lemma Promise_all_find_owner X names w :
  (exists owners,
      Promise_all (find_owner X) names w = (Ret owners, w)
      /\ map Some owners = map (resolve X w) names)
  \/ (exists name,
        In name names /\ resolve X w name = None
        /\ Promise_all (find_owner X) names w
           = (Throw (Api (mkApiError 404 (owner_not_found name))), w)).
Proof.
  induction names as [| n r IH]; cbn [Promise_all map In].
  - left. exists []. split; reflexivity.
  - rewrite find_owner_reads. destruct (resolve X w n) as [u |] eqn:E.
    + destruct IH as [(owners & -> & Hmap) | (name & Hin & Hnone & ->)].
      * left. exists (u :: owners). cbn [map]. rewrite Hmap. auto.
      * right. exists name. auto.
    + right. exists n. split; [auto |]. split; [exact E |].
      destruct IH as [(owners & -> & _) | (name & _ & _ & ->)]; reflexivity.
Qed.

Lemma Project_create_Ret X mk w p w' :
  Project_create X mk w = (Ret p, w') ->
  p = mk (next_id w) /\ users w' = users w
  /\ projectDocs w' = projectDocs w ++ [p].
Proof.
  unfold Project_create. run_monad.
  destruct (negb (Project_validate X (mk (next_id w)))); [discriminate |].
  intros [= <- <-]. auto.
Qed.

Lemma User_save_push_Ret X salt doc p w w' :
  User_save X salt doc [PushProject p] w = (Ret tt, w') ->
  users w' = push_project (_id doc) p (users w)
  /\ projectDocs w' = projectDocs w
  /\ exists stored, find (fun u => _id u =? _id doc) (users w) = Some stored.
Proof.
  unfold User_save, pre_save.
  cbn [map change_path existsb String.eqb Ascii.eqb Bool.eqb orb negb fold_left
       apply_change].
  run_monad. destruct (find _ (users w)) as [stored |]; [| discriminate].
  intros [= <-]. eauto.
Qed.

Lemma project_guard_passes b :
  project_fields_present b = true ->
  negb (Js.truthy (pb_name b)) || negb (Js.truthy (pb_repoId b))
  || negb (Js.truthy (pb_url b)) || negb (Js.truthy (pb_description b))
  || negb (Js.truthy (pb_domain b)) = false.
Proof.
  unfold project_fields_present.
  destruct (Js.truthy (pb_name b)), (Js.truthy (pb_repoId b)),
    (Js.truthy (pb_url b)), (Js.truthy (pb_description b)),
    (Js.truthy (pb_domain b)); simpl; congruence.
Qed.

Lemma same_docs_of_run {A} (m : M A) w a w' :
  keeps same_docs m -> m w = (Ret a, w') ->
  users w' = users w /\ projectDocs w' = projectDocs w.
Proof. intros Hk Hrun. specialize (Hk w). rewrite Hrun in Hk. exact Hk. Qed.

(** A listed owner without a user: 404, and nothing written. *)
Lemma addProject_unknown_owner X env req user ownersUsernames techStack w name :
  pr_user req = Some user ->
  pb_ownersUsernames (pr_body req) = Some ownersUsernames ->
  pb_techStack (pr_body req) = Some techStack ->
  project_fields_present (pr_body req) = true ->
  In name (owner_names ownersUsernames) ->
  (forall u, In u (users w) -> username u <> as_username X name) ->
  exists msg, addProject X env req w = (Throw (Api (mkApiError 404 msg)), w).
Proof.
  intros Huser Hou Hts Hpresent Hin Hnone.
  destruct (Promise_all_find_owner X (owner_names ownersUsernames) w)
    as [(owners & _ & Hmap) | (missing & _ & _ & Hrun)].
  - exfalso.
    assert (Hr : In (resolve X w name) (map (resolve X w) (owner_names ownersUsernames)))
      by (apply in_map; exact Hin).
    rewrite <- Hmap in Hr. apply in_map_iff in Hr. destruct Hr as (u & Hu & _).
    symmetry in Hu. apply find_some in Hu. destruct Hu as [Hu Hname].
    apply String.eqb_eq in Hname. exact (Hnone u Hu Hname).
  - exists (owner_not_found missing).
    unfold addProject. rewrite Huser, Hou, Hts, project_guard_passes by assumption.
    fold (owner_names ownersUsernames). run_monad. rewrite Hrun. reflexivity.
Qed.

(** What a project creation that answers has done. *)
Lemma addProject_Ret X env req user ownersUsernames techStack w resp w' :
  pr_user req = Some user ->
  pb_ownersUsernames (pr_body req) = Some ownersUsernames ->
  pb_techStack (pr_body req) = Some techStack ->
  project_fields_present (pr_body req) = true ->
  addProject X env req w = (Ret resp, w') ->
  exists newProject owners,
    resp = mkResponse 200 []
             (new_ApiResponse 200 (DProjectOwners newProject (map toJSON owners))
                "New project added successfully")
    /\ map Some owners = map (resolve X w) (owner_names ownersUsernames)
    /\ p_owners newProject = map _id owners
    /\ projectDocs w' = projectDocs w ++ [newProject]
    /\ users w' = push_project (_id user) (p_id newProject) (users w)
    /\ exists stored, find (fun u => _id u =? _id user) (users w) = Some stored.
Proof.
  intros Huser Hou Hts Hpresent Hrun.
  unfold addProject in Hrun.
  rewrite Huser, Hou, Hts, project_guard_passes in Hrun by assumption.
  fold (owner_names ownersUsernames) in Hrun.
  apply try_catch_rethrow_Ret in Hrun.
  apply bind_Ret in Hrun. destruct Hrun as (? & w1 & H1 & Hrun).
  injection H1 as _ <-.
  apply bind_Ret in Hrun. destruct Hrun as (owners & w2 & H2 & Hrun).
  destruct (Promise_all_find_owner X (owner_names ownersUsernames) w)
    as [(owners' & Ho & Hmap) | (missing & _ & _ & Ho)];
    rewrite Ho in H2; [| discriminate].
  injection H2 as <- <-.
  apply bind_Ret in Hrun. destruct Hrun as (videosUrl & w3 & H3 & Hrun).
  apply same_docs_of_run in H3; [| auto with keeps].
  apply bind_Ret in Hrun. destruct Hrun as (imagesUrl & w4 & H4 & Hrun).
  apply same_docs_of_run in H4; [| auto with keeps].
  apply bind_Ret in Hrun. destruct Hrun as (thumbnailUrl & w5 & H5 & Hrun).
  apply same_docs_of_run in H5; [| keeps_all].
  apply bind_Ret in Hrun. destruct Hrun as (newProject & w6 & H6 & Hrun).
  apply Project_create_Ret in H6. destruct H6 as (Hp & Hu6 & Hd6).
  apply bind_Ret in Hrun. destruct Hrun as ([] & w7 & H7 & Hrun).
  apply User_save_push_Ret in H7. destruct H7 as (Hu7 & Hd7 & stored & Hs).
  injection Hrun as <- <-.
  destruct H3 as [Hu3 Hd3], H4 as [Hu4 Hd4], H5 as [Hu5 Hd5].
  exists newProject, owners'.
  split; [reflexivity |]. split; [exact Hmap |]. split; [rewrite Hp; reflexivity |].
  split; [congruence |]. split; [congruence |].
  exists stored. congruence.
Qed.

(** C7, as amended.  For a project-creation request of an authenticated
    user whose body has [ownersUsernames] and [techStack] and a name, repoId,
    url, description and domain that are not empty: when a listed owner name,
    trimmed and lower-cased as the query casts it, is the username of no
    user, the request fails with 404 and the world is what it was, so no
    Project is persisted and no user's list changed; and when the request
    answers, it is with 200 and the new Project, whose owners are the users
    the listed names stand for, the Project is appended to the collection
    and its [_id] to the projects of the stored creating user. *)
Theorem addProject_outcomes
    (X : Externals) (env : Env) (req : ProjectReq) (user : User)
    (ownersUsernames techStack : string) (w : World) :
  pr_user req = Some user ->
  pb_ownersUsernames (pr_body req) = Some ownersUsernames ->
  pb_techStack (pr_body req) = Some techStack ->
  project_fields_present (pr_body req) = true ->
  (forall name,
      In name (owner_names ownersUsernames) ->
      (forall u, In u (users w) -> username u <> as_username X name) ->
      exists msg, addProject X env req w = (Throw (Api (mkApiError 404 msg)), w))
  /\ (forall resp w',
         addProject X env req w = (Ret resp, w') ->
         exists newProject owners,
           resp = mkResponse 200 []
                    (new_ApiResponse 200
                       (DProjectOwners newProject (map toJSON owners))
                       "New project added successfully")
           /\ map Some owners = map (resolve X w) (owner_names ownersUsernames)
           /\ p_owners newProject = map _id owners
           /\ projectDocs w' = projectDocs w ++ [newProject]
           /\ users w' = push_project (_id user) (p_id newProject) (users w)
           /\ exists stored,
                find (fun u => _id u =? _id user) (users w) = Some stored).
Proof.
  intros Huser Hou Hts Hpresent. split.
  - intros name Hin Hnone. eapply addProject_unknown_owner; eassumption.
  - intros resp w' Hrun. eapply addProject_Ret; eassumption.
Qed.

(** Alice creates a project that she and nobody else owns, her name given
    in capitals and padded. *)
Lemma addProject_alice_runs :
  let b := mkProjectBody (Some "prover") (Some "r1") (Some "https://x.example")
             (Some "a prover") (Some "logic") (Some "coq, ocaml") None
             (Some " Alice ") in
  exists resp w',
    addProject Toy.X (Toy.at_time 6) (mkProjectReq (Some Scenario.alice) b None)
      Scenario.logged_in
    = (Ret resp, w')
    /\ map projects (users w') = [[2]].
Proof. eexists _, _. vm_compute. split; reflexivity. Qed.

Lemma addProject_outcomes_witness :
  (exists msg,
      addProject Toy.X (Toy.at_time 6)
        (mkProjectReq (Some Scenario.alice)
           (mkProjectBody (Some "prover") (Some "r1") (Some "https://x.example")
              (Some "a prover") (Some "logic") (Some "coq, ocaml") None
              (Some "alice, ghost"))
           None)
        Scenario.logged_in
      = (Throw (Api (mkApiError 404 msg)), Scenario.logged_in))
  /\ (exists newProject,
        p_owners newProject = [1]
        /\ projectDocs
             (snd (addProject Toy.X (Toy.at_time 6)
                     (mkProjectReq (Some Scenario.alice)
                        (mkProjectBody (Some "prover") (Some "r1")
                           (Some "https://x.example") (Some "a prover")
                           (Some "logic") (Some "coq, ocaml") None
                           (Some " Alice "))
                        None)
                     Scenario.logged_in))
           = [newProject]).
Proof.
  split.
  - apply (proj1 (addProject_outcomes Toy.X (Toy.at_time 6)
                    (mkProjectReq (Some Scenario.alice)
                       (mkProjectBody (Some "prover") (Some "r1")
                          (Some "https://x.example") (Some "a prover")
                          (Some "logic") (Some "coq, ocaml") None
                          (Some "alice, ghost"))
                       None)
                    Scenario.alice "alice, ghost" "coq, ocaml" Scenario.logged_in
                    eq_refl eq_refl eq_refl eq_refl) "ghost").
    + right. left. reflexivity.
    + intros u [<- | []]. discriminate.
  - destruct addProject_alice_runs as (resp & w' & Hrun & _).
    destruct (proj2 (addProject_outcomes Toy.X (Toy.at_time 6)
                       (mkProjectReq (Some Scenario.alice)
                          (mkProjectBody (Some "prover") (Some "r1")
                             (Some "https://x.example") (Some "a prover")
                             (Some "logic") (Some "coq, ocaml") None
                             (Some " Alice "))
                          None)
                       Scenario.alice " Alice " "coq, ocaml" Scenario.logged_in
                       eq_refl eq_refl eq_refl eq_refl) resp w' Hrun)
      as (newProject & owners & _ & Hmap & Hown & Hdocs & _).
    exists newProject. split.
    + rewrite Hown.
      assert (Hids : map (fun o => Some (_id o)) owners = [Some 1]).
      { rewrite <- (map_map Some (option_map _id)), Hmap. vm_compute. reflexivity. }
      destruct owners as [| o [| o' l]]; [discriminate | | discriminate].
      injection Hids as Hid. simpl. rewrite Hid. reflexivity.
    + cbv zeta in Hrun. rewrite Hrun. exact Hdocs.
Defined.

(** C7 as stated fails: a listed owner has no user, and the request is
    answered 400, not 404, because the project has no name. *)
Lemma addProject_unknown_owner_missing_name :
  let b := mkProjectBody None (Some "r1") (Some "https://x.example")
             (Some "a prover") (Some "logic") (Some "coq") None (Some "ghost") in
  resolve Toy.X Scenario.logged_in "ghost" = None
  /\ addProject Toy.X (Toy.at_time 6) (mkProjectReq (Some Scenario.alice) b None)
       Scenario.logged_in
     = (Throw (Api (mkApiError 400 "Missing required project data")),
        Scenario.logged_in).
Proof. split; reflexivity. Qed.

(** ** C1: refresh *)

(** Whatever refresh answers, its [refreshToken] is [undefined], in the
    cookie and in the body: the helper's object has no [newRefreshToken]. *)
Lemma refreshAccessToken_Ret X env req w resp w' :
  refreshAccessToken X env req w = (Ret resp, w') ->
  cookie_set "refreshToken" (cookies resp) = None
  /\ exists accessToken, data (json resp) = DTokens accessToken None.
Proof.
  unfold refreshAccessToken. intros Hrun.
  apply bind_Ret in Hrun. destruct Hrun as (? & w1 & _ & Hrun).
  unfold try_catch in Hrun.
  destruct (bind (user_of_refreshToken X env _) _ w1) as [[r | e] w2] eqn:Hbody;
    [| discriminate].
  injection Hrun as -> ->.
  apply bind_Ret in Hbody. destruct Hbody as (user & w3 & _ & Hbody).
  apply bind_Ret in Hbody. destruct Hbody as (tokens & w4 & Htok & Hret).
  unfold generateAccessTokenAndRefreshToken in Htok.
  apply bind_Ret in Htok. destruct Htok as ([u |] & w5 & _ & Htok); [| discriminate].
  apply bind_Ret in Htok. destruct Htok as (? & w6 & _ & Htok).
  injection Htok as <- _. injection Hret as <- _.
  split; [reflexivity |]. eexists. reflexivity.
Qed.

(** The rejections of refresh, which hold: no token, a token that does not
    verify, a token whose user is not stored, a token that is not the stored
    one.  Each is a 401 and writes nothing. *)
Lemma refreshAccessToken_rejects X env req w :
  let incoming := Js.or_else (tk_cookie req) (tk_body req) in
  (Js.truthy incoming = false ->
   refreshAccessToken X env req w
   = (Throw (Api (mkApiError 401 "Unauthorized Access")), w))
  /\ (Js.truthy incoming = true ->
      match jwt_verify X (Js.or_empty incoming) (REFRESH_TOKEN_SECRET X) (now env) with
      | None => True
      | Some decodedToken =>
          match jwt_id decodedToken with
          | None => True
          | Some id =>
              match find (fun u => _id u =? id) (users w) with
              | None => True
              | Some user => same_token (Js.or_empty incoming) (refreshToken user) = false
              end
          end
      end ->
      refreshAccessToken X env req w
      = (Throw (Api (mkApiError 401 "Invalid Refresh Token")), w)).
Proof.
  cbv zeta. unfold refreshAccessToken, user_of_refreshToken. split.
  - intros ->. reflexivity.
  - intros ->. run_monad. cbn [negb].
    destruct (jwt_verify X _ _ _) as [decodedToken |]; [| reflexivity].
    destruct (jwt_id decodedToken) as [id |]; [| reflexivity].
    destruct (find _ (users w)) as [user |]; [| reflexivity].
    intros ->. reflexivity.
Qed.

(** C1 fails on the code.  Alice logs in at time 3 and is given a refresh
    token, which is the stored one.  Her refresh at time 4 answers 200 with
    a new access token, and no refresh token: the cookie and the body field
    are [undefined].  The store holds a new refresh token she never saw; her
    old token is now rejected, and so is what she was sent, as no token or
    as the cookie text it becomes. *)
Theorem refresh_loses_the_new_token :
  let old := "refresh-secret.1...3" in
  let r := refreshAccessToken Toy.X (Toy.at_time 4) (mkTokenReq (Some old) None)
             Scenario.logged_in in
  let w' := snd r in
  map refreshToken (users Scenario.logged_in) = [Some old]
  /\ returned (fst r)
     = Some (mkResponse 200
               [cookie "accessToken" (Some "access-secret.1.alice@example.org.alice.4")
                  (mkCookieOption true true);
                cookie "refreshToken" None (mkCookieOption true true)]
               (mkApiResponse 200
                  (DTokens (Some "access-secret.1.alice@example.org.alice.4") None)
                  "Access Token Refreshed" true))
  /\ map refreshToken (users w') = [Some "refresh-secret.1...4"]
  /\ refreshAccessToken Toy.X (Toy.at_time 5) (mkTokenReq (Some old) None) w'
     = (Throw (Api (mkApiError 401 "Invalid Refresh Token")), w')
  /\ refreshAccessToken Toy.X (Toy.at_time 5) (mkTokenReq None None) w'
     = (Throw (Api (mkApiError 401 "Unauthorized Access")), w')
  /\ refreshAccessToken Toy.X (Toy.at_time 5) (mkTokenReq (Some "undefined") None) w'
     = (Throw (Api (mkApiError 401 "Invalid Refresh Token")), w').
Proof. vm_compute. repeat split. Qed.

(** * Further properties of the controllers *)

(** ** The endpoints that read *)

Lemma user_of_refreshToken_run X env t w :
  match accepted_user X env w t with
  | Some user => user_of_refreshToken X env t w = (Ret user, w)
  | None => exists e, user_of_refreshToken X env t w = (Throw e, w)
  end.
Proof.
  unfold accepted_user, user_of_refreshToken. run_monad.
  destruct (jwt_verify X t _ _) as [decodedToken |]; [| eauto].
  destruct (jwt_id decodedToken) as [id |]; [| eauto].
  destruct (find _ (users w)) as [user |]; [| eauto].
  destruct (same_token t (refreshToken user)); simpl; eauto.
Qed.

(** A [Promise.all] of reads is the list of what they read, and writes
    nothing. *)
Lemma Promise_all_of_reads {A B} (task : A -> M B) (read : A -> World -> B)
    (items : list A) (w : World) :
  (forall a, task a w = (Ret (read a w), w)) ->
  Promise_all task items w = (Ret (map (fun a => read a w) items), w).
Proof.
  intros Htask. induction items as [| a r IH]; simpl; [reflexivity |].
  rewrite Htask, IH. reflexivity.
Qed.

Lemma fetchUserData_run X env req w :
  fetchUserData X env req w
  = (if Js.truthy (Js.or_else (tk_cookie req) (tk_body req)) then
       match accepted_user X env w
               (Js.or_empty (Js.or_else (tk_cookie req) (tk_body req))) with
       | Some user =>
           Ret (mkResponse 200 []
                  (mkApiResponse 200 (DUser (userValues user))
                     "User Data Successfully fetched" true))
       | None => Throw (Api (mkApiError 401 "Error Fetching Data"))
       end
     else Throw (Api (mkApiError 401 "Unauthorized Access")), w).
Proof.
  unfold fetchUserData.
  destruct (Js.truthy (Js.or_else (tk_cookie req) (tk_body req))); [| reflexivity].
  cbn [negb throw_if]. unfold bind at 1, ret at 1, try_catch, bind at 1.
  pose proof (user_of_refreshToken_run X env
                (Js.or_empty (Js.or_else (tk_cookie req) (tk_body req))) w) as Hrun.
  destruct (accepted_user X env w _) as [user |].
  - rewrite Hrun. reflexivity.
  - destruct Hrun as [e ->]. reflexivity.
Qed.

(** X1.  [fetchUserData] never writes.  Without a token it answers 401
    "Unauthorized Access"; with a token that is not accepted, for whatever
    reason, 401 "Error Fetching Data"; with the stored token of a user, 200
    and that user's fullname, username, email and githubId, with profilePic
    and coverImg when set, and no other key. *)
Theorem fetchUserData_outcomes (X : Externals) (env : Env) (req : TokenReq)
    (w : World) :
  let incoming := Js.or_else (tk_cookie req) (tk_body req) in
  fetchUserData X env req w
  = (if Js.truthy incoming then
       match accepted_user X env w (Js.or_empty incoming) with
       | Some user =>
           Ret (mkResponse 200 []
                  (mkApiResponse 200 (DUser (userValues user))
                     "User Data Successfully fetched" true))
       | None => Throw (Api (mkApiError 401 "Error Fetching Data"))
       end
     else Throw (Api (mkApiError 401 "Unauthorized Access")), w)
  /\ forall user,
       forallb (fun kv => existsb (String.eqb (fst kv)) public_keys)
         (userValues user) = true.
Proof.
  cbv zeta. split.
  - apply fetchUserData_run.
  - intros [? ? ? ? ? ? pic ? cov ? ? ? ?]. destruct pic, cov; reflexivity.
Qed.

(** X2.  [fetchUserProjects] never writes.  The user is the one stored
    under the name of the route trimmed and in lower case, as the query
    casts it.  When there is none it answers 404, with the name as it was
    given; otherwise 200 with the stored projects of the user's list, in the
    order of the list, a reference to a project that is not stored being
    skipped; the message tells an empty list apart. *)
Theorem fetchUserProjects_outcomes (X : Externals) (name : string) (w : World) :
  fetchUserProjects X name w
  = (match resolve X w name with
     | None => Throw (Api (mkApiError 404 (owner_not_found name)))
     | Some user =>
         Ret (mkResponse 200 []
                (mkApiResponse 200 (DProjects (stored_projects w (projects user)))
                   (match projects user with
                    | [] => "No projects found for this user"
                    | _ => "User Projects Successfully fetched"
                    end) true))
     end, w).
Proof.
  unfold fetchUserProjects, resolve. run_monad.
  destruct (find _ (users w)) as [user |]; [| reflexivity].
  cbn [option_map]. change (projects (select_public user)) with (projects user).
  destruct (projects user) as [| i l] eqn:E; [reflexivity |].
  rewrite (Promise_all_of_reads Project_findById
             (fun id w => find (fun p => p_id p =? id) (projectDocs w)))
    by reflexivity.
  reflexivity.
Qed.

(** X3.  [fetchProject] never writes.  The user is the one stored under
    the name of the route trimmed and in lower case, as the query casts it;
    when there is none it answers 404; when none of the user's stored
    projects has the requested name it answers 500, not 404; otherwise 200
    with the first project of that name in the order of the collection, its
    owners replaced by the stored users they refer to, without [password]
    and [refreshToken], an owner that is not stored being dropped. *)
Theorem fetchProject_outcomes (X : Externals) (name projectName : string)
    (w : World) :
  fetchProject X name projectName w
  = (match resolve X w name with
     | None => Throw (Api (mkApiError 404 (owner_not_found name)))
     | Some user =>
         match find (fun p => String.eqb (p_name p) projectName) (projects_of w user) with
         | None => Throw (Api (mkApiError 500 "Error Fetching User Projects"))
         | Some project =>
             Ret (mkResponse 200 []
                    (mkApiResponse 200 (DProjectOwners project (owner_objects w project))
                       "Project successfully fetched" true))
         end
     end, w)
  /\ forall project, Forall no_secrets (owner_objects w project).
Proof.
  split.
  - unfold fetchProject, resolve, projects_of, Project_find_in. run_monad.
    destruct (find _ (users w)) as [user |]; [| reflexivity].
    cbn [option_map]. change (projects (select_public user)) with (projects user).
    destruct (find _ (filter _ (projectDocs w))) as [project |]; [| reflexivity].
    rewrite (Promise_all_of_reads _
               (fun id w => option_map select_public
                              (find (fun u => _id u =? id) (users w))))
      by reflexivity.
    reflexivity.
  - intro project. unfold owner_objects.
    induction (p_owners project) as [| id l IH]; simpl; [constructor |].
    destruct (find _ (users w)) as [u |]; simpl; [| exact IH].
    constructor; [apply no_secrets_select_public | exact IH].
Qed.

(** The routes that take a username find Alice under "Alice" as under
    "alice". *)
Example routes_cast_the_username :
  option_map status
    (returned (fst (fetchUserProjects Toy.X "Alice" Scenario.registered)))
  = Some 200
  /\ fst (fetchProject Toy.X " ALICE" "prover" Scenario.registered)
     = Throw (Api (mkApiError 500 "Error Fetching User Projects"))
  /\ outbox (snd (sendEmail Toy.X "Alice "
                    (mkContactBody (Some "Ann") None (Some "ann@example.org")
                       (Some "Hello"))
                    Scenario.registered))
     = outbox Scenario.registered
       ++ [contact_mail "alice@example.org"
             (mkContactBody (Some "Ann") None (Some "ann@example.org") (Some "Hello"))].
Proof. vm_compute. repeat split. Qed.

(** The template of the contact mail, filled in: the text between the
    backquotes of the source, a field that was not sent reading
    "undefined". *)
Example contact_html_filled_in :
  contact_html (mkContactBody (Some "Ann") None (Some "ann@example.org") (Some "Hello"))
  = "
        <p><strong>First Name:</strong> Ann</p>
        <p><strong>Last Name:</strong> undefined</p>
        <p><strong>Email By:</strong> ann@example.org</p>
        <p><strong>Message:</strong></p>
        <p>Hello</p>
      ".
Proof. reflexivity. Qed.

(** X4.  [sendEmail] writes to the outbox only.  The user is the one stored
    under the name of the route trimmed and in lower case, as the query
    casts it.  When there is none, or when the user's stored email is empty,
    it answers 404; otherwise the contact mail, whose body is the template
    of the code filled in with the four fields of the form, goes to the
    user's stored address, whatever address the form carries, and the answer
    is 200; when the transport rejects the mail the answer is 500 and
    nothing is sent. *)
Theorem sendEmail_outcomes (X : Externals) (name : string) (body : ContactBody)
    (w : World) :
  sendEmail X name body w
  = match resolve X w name with
    | None => (Throw (Api (mkApiError 404 (owner_not_found name))), w)
    | Some user =>
        if String.eqb (email user) "" then
          (Throw (Api (mkApiError 404
                         (String.append "Email for username "
                            (String.append name " not found")))), w)
        else if sendMail X (contact_mail (email user) body) then
          (Ret (mkResponse 200 []
                  (mkApiResponse 200 DSuccess "Email sent successfully" true)),
           set_outbox (fun l => l ++ [contact_mail (email user) body]) w)
        else (Throw (Api (mkApiError 500 "Error while sending he email.")), w)
    end.
Proof.
  unfold sendEmail, resolve, transporter_sendMail, contact_mail. run_monad.
  destruct (find _ (users w)) as [user |]; [| reflexivity].
  cbn [option_map]. change (email (select_public user)) with (email user).
  destruct (String.eqb (email user) ""); [reflexivity |].
  match goal with |- context [sendMail X ?m] => destruct (sendMail X m) end;
    reflexivity.
Qed.

(** ** Refresh *)

(** [refreshAccessToken] in terms of the accepted user and of what the token
    helper does for it. *)
Lemma refreshAccessToken_run X env req w :
  refreshAccessToken X env req w
  = if Js.truthy (Js.or_else (tk_cookie req) (tk_body req)) then
      match accepted_user X env w
              (Js.or_empty (Js.or_else (tk_cookie req) (tk_body req))) with
      | Some user =>
          match generateAccessTokenAndRefreshToken X env (_id user) w with
          | (Ret tokens, w1) =>
              (Ret (mkResponse 200
                      [cookie "accessToken" (Js.get tokens "accessToken") cookieOption;
                       cookie "refreshToken" (Js.get tokens "newRefreshToken")
                         cookieOption]
                      (new_ApiResponse 200
                         (DTokens (Js.get tokens "accessToken")
                            (Js.get tokens "newRefreshToken"))
                         "Access Token Refreshed")), w1)
          | (Throw _, w1) =>
              (Throw (Api (mkApiError 401 "Invalid Refresh Token")), w1)
          end
      | None => (Throw (Api (mkApiError 401 "Invalid Refresh Token")), w)
      end
    else (Throw (Api (mkApiError 401 "Unauthorized Access")), w).
Proof.
  unfold refreshAccessToken.
  destruct (Js.truthy (Js.or_else (tk_cookie req) (tk_body req))); [| reflexivity].
  cbn [negb throw_if]. unfold bind at 1, ret at 1, try_catch, bind at 1.
  pose proof (user_of_refreshToken_run X env
                (Js.or_empty (Js.or_else (tk_cookie req) (tk_body req))) w) as Hrun.
  destruct (accepted_user X env w _) as [user |].
  - rewrite Hrun. unfold bind.
    destruct (generateAccessTokenAndRefreshToken X env (_id user) w) as [[tokens | e] w1];
      reflexivity.
  - destruct Hrun as [e ->]. reflexivity.
Qed.

(** X5.  [refreshAccessToken] answers 200 or fails with one of two 401s,
    whatever goes wrong inside: the message "Refresh token expired or used"
    never reaches the caller.  It answers 200 only for an accepted token,
    and a request whose token is missing or not accepted writes nothing. *)
Theorem refreshAccessToken_answers (X : Externals) (env : Env) (req : TokenReq)
    (w : World) :
  let incoming := Js.or_else (tk_cookie req) (tk_body req) in
  let r := refreshAccessToken X env req w in
  match fst r with
  | Ret resp =>
      status resp = 200 /\ Js.truthy incoming = true
      /\ exists user, accepted_user X env w (Js.or_empty incoming) = Some user
  | Throw e =>
      e = Api (mkApiError 401 "Unauthorized Access")
      \/ e = Api (mkApiError 401 "Invalid Refresh Token")
  end
  /\ (snd r = w
      \/ (Js.truthy incoming = true
          /\ exists user, accepted_user X env w (Js.or_empty incoming) = Some user)).
Proof.
  cbv zeta. rewrite refreshAccessToken_run.
  destruct (Js.truthy (Js.or_else (tk_cookie req) (tk_body req))).
  2: { split; left; reflexivity. }
  destruct (accepted_user X env w _) as [user |].
  - split; [| right; eauto].
    destruct (generateAccessTokenAndRefreshToken X env (_id user) w) as [[tokens | e] w1];
      cbn [fst].
    + split; [reflexivity |]. split; [reflexivity |]. eauto.
    + right. reflexivity.
  - split; [right | left]; reflexivity.
Qed.

(** ** Registration *)

Lemma throw_if_Ret (c : bool) (e : Exn) w (a : unit) w' :
  throw_if c e w = (Ret a, w') -> c = false /\ w' = w.
Proof.
  destruct c; unfold throw_if, throw, ret; intros Hrun;
    [discriminate | injection Hrun as <-; auto].
Qed.

(** X8.  The three guards of [registerUser], in the order the code has
    them: a field that is present and blank once trimmed is answered 400
    "All fields are required"; failing that, an email that is not acceptable
    is answered 400 "Email not acceptable"; failing that, a GitHub handle
    that is not acceptable is answered 400 "Github ID not acceptable".  By
    then nothing was read, uploaded, stored or mailed, whatever files came
    with the request. *)
Theorem registerUser_guards
    (X : Externals) (env : Env) (req : RegisterReq) (w : World) :
  let b := reg_body req in
  let rejected msg :=
    registerUser X env req w = (Throw (Api (mkApiError 400 msg)), w) in
  if existsb blank (register_fields b) then rejected "All fields are required"
  else if negb (isValidEmail X (rb_email b)) then rejected "Email not acceptable"
  else if negb (isValidGitHubId X (rb_githubId b))
       then rejected "Github ID not acceptable"
       else True.
Proof.
  cbv zeta. unfold registerUser, register_fields.
  destruct (existsb blank _); [reflexivity |].
  destruct (isValidEmail X _); [| reflexivity].
  destruct (isValidGitHubId X _); [exact I | reflexivity].
Qed.

(** What one optional upload of [registerUser] can do: it fails only with an
    error that is not an [ApiError], it writes to the storage only, and a
    file the storage took is there afterwards. *)
Lemma upload_first_run X field w :
  let r := upload_first X field w in
  (forall e, fst r = Throw e -> exists what, e = Other what)
  /\ users (snd r) = users w /\ otps (snd r) = otps w
  /\ projectDocs (snd r) = projectDocs w /\ outbox (snd r) = outbox w
  /\ incl (cloud w) (cloud (snd r))
  /\ (forall path rest url,
         field = Some (path :: rest) ->
         uploadFileToCloudinary X path = UploadResponse url ->
         In path (cloud (snd r))).
Proof.
  cbv zeta. unfold upload_first, upload.
  destruct field as [[| path rest] |]; run_monad; cbn [fst snd].
  - repeat split; try apply incl_refl; try discriminate; intros e [= <-]; eauto.
  - destruct (uploadFileToCloudinary X path) as [url | | msg] eqn:U; cbn [fst snd].
    + repeat split; try discriminate.
      * simpl. apply incl_appl, incl_refl.
      * intros p r u [= <- _] _. simpl. apply in_or_app. right. left. reflexivity.
    + repeat split; try apply incl_refl; try discriminate.
      intros p r u [= <- _]. congruence.
    + repeat split; try apply incl_refl.
      * intros e [= <-]. eauto.
      * intros p r u [= <- _]. congruence.
  - repeat split; try apply incl_refl; discriminate.
Qed.

(** X9.  A registration without the [username] key, otherwise valid and not
    in conflict, is not rejected by the checks: it fails with 500 only after
    the files were sent to storage.  No OTP record is written, no mail sent,
    no user touched, and a profile picture the storage took stays there. *)
Theorem registerUser_without_username
    (X : Externals) (env : Env) (req : RegisterReq) (w : World) :
  let b := reg_body req in
  let r := registerUser X env req w in
  rb_username b = None ->
  existsb blank (register_fields b) = false ->
  isValidEmail X (rb_email b) = true ->
  isValidGitHubId X (rb_githubId b) = true ->
  find (register_match X b) (users w) = None ->
  fst r = Throw (Api (mkApiError 500 "Registration failed. Please try again."))
  /\ users (snd r) = users w /\ otps (snd r) = otps w /\ outbox (snd r) = outbox w
  /\ forall path rest url,
       (match reg_files req with Some f => rf_profilePic f | None => None end)
       = Some (path :: rest) ->
       uploadFileToCloudinary X path = UploadResponse url ->
       In path (cloud (snd r)).
Proof.
  cbv zeta. intros Hname Hblank Hmail Hgh Hfind.
  unfold registerUser. fold (register_fields (reg_body req)).
  rewrite Hblank, Hmail, Hgh.
  run_monad. cbn [negb].
  change (find _ (users w)) with (find (register_match X (reg_body req)) (users w)).
  rewrite Hfind, Hname.
  set (pic := match reg_files req with Some f => rf_profilePic f | None => None end).
  set (cov := match reg_files req with Some f => rf_coverImg f | None => None end).
  pose proof (upload_first_run X pic w) as Hp. cbv zeta in Hp.
  destruct (upload_first X pic w) as [[url1 | e1] w1]; cbn [fst snd] in Hp.
  - destruct Hp as (_ & Hu1 & Ho1 & _ & Hb1 & Hi1 & Hin1).
    pose proof (upload_first_run X cov w1) as Hc. cbv zeta in Hc.
    destruct (upload_first X cov w1) as [[url2 | e2] w2]; cbn [fst snd] in Hc.
    + destruct Hc as (_ & Hu2 & Ho2 & _ & Hb2 & Hi2 & _). cbn.
      repeat split; try congruence.
      intros path rest url Hf Hup. apply Hi2. eauto.
    + destruct Hc as (He & Hu2 & Ho2 & _ & Hb2 & Hi2 & _).
      destruct (He e2 eq_refl) as [what ->]. cbn.
      repeat split; try congruence.
      intros path rest url Hf Hup. apply Hi2. eauto.
  - destruct Hp as (He & Hu1 & Ho1 & _ & Hb1 & _ & Hin1).
    destruct (He e1 eq_refl) as [what ->]. cbn.
    repeat split; try congruence. eauto.
Qed.

Lemma registerUser_without_username_witness :
  let req := mkRegisterReq
               (mkRegisterBody None (Some "Bob B") (Some "bob@example.org")
                  (Some "pw") (Some "bob-gh") (Some "dev") (Some "hi"))
               (Some (mkRegisterFiles (Some ["/tmp/pic.png"]) None)) in
  let r := registerUser Toy.X (Toy.at_time 5) req Toy.empty in
  fst r = Throw (Api (mkApiError 500 "Registration failed. Please try again."))
  /\ cloud (snd r) = ["/tmp/pic.png"]
  /\ otps (snd r) = [].
Proof.
  intros req r.
  destruct (registerUser_without_username Toy.X (Toy.at_time 5) req Toy.empty
              eq_refl eq_refl eq_refl eq_refl eq_refl)
    as (Hthrow & _ & Hotps & _).
  split; [exact Hthrow |]. split; [reflexivity | exact Hotps].
Defined.

(** X10.  A registration, whatever its outcome, leaves the users and the
    projects as they were: the pending user is not persisted.  When it
    answers, it is with 201 and a payload that echoes the submitted fields,
    the password as it was typed and the username in lower case, and then
    every check was passed: no field was blank, the email and the handle
    were acceptable, and no stored user had the username, the email or the
    githubId. *)
Theorem registerUser_pending_payload (X : Externals) (env : Env)
    (req : RegisterReq) (w : World) :
  same_docs w (snd (registerUser X env req w))
  /\ forall resp w',
       registerUser X env req w = (Ret resp, w') ->
       let b := reg_body req in
       exists name profilePicUrl coverImgUrl,
         rb_username b = Some name
         /\ resp = mkResponse 201 []
                     (mkApiResponse 201
                        (DPending
                           (mkUserData (rb_fullname b) (Some profilePicUrl)
                              (Some coverImgUrl)
                              (Some (Js.toLowerCase (unicode_toLowerCase X) name))
                              (rb_email b) (rb_githubId b) (rb_password b)
                              (rb_position b) (rb_description b) None [] [] [] []))
                        "User registered successfully" true)
         /\ existsb blank (register_fields b) = false
         /\ isValidEmail X (rb_email b) = true
         /\ isValidGitHubId X (rb_githubId b) = true
         /\ find (register_match X b) (users w) = None.
Proof.
  split; [apply (keeps_registerUser same_docs) |].
  intros resp w' Hrun. cbv zeta.
  unfold registerUser in Hrun. apply try_catch_rethrow_Ret in Hrun.
  fold (register_fields (reg_body req)) in Hrun.
  apply bind_Ret in Hrun. destruct Hrun as (? & w1 & H1 & Hrun).
  apply throw_if_Ret in H1. destruct H1 as [Hblank ->].
  apply bind_Ret in Hrun. destruct Hrun as (? & w2 & H2 & Hrun).
  apply throw_if_Ret in H2. destruct H2 as [Hmail ->].
  apply bind_Ret in Hrun. destruct Hrun as (? & w3 & H3 & Hrun).
  apply throw_if_Ret in H3. destruct H3 as [Hgh ->].
  apply bind_Ret in Hrun. destruct Hrun as (existed & w4 & H4 & Hrun).
  unfold User_findOne, gets in H4. injection H4 as <- <-.
  change (find _ (users w))
    with (find (register_match X (reg_body req)) (users w)) in Hrun.
  destruct (find (register_match X (reg_body req)) (users w)) eqn:F; [discriminate |].
  apply bind_Ret in Hrun. destruct Hrun as (pic & w5 & _ & Hrun).
  apply bind_Ret in Hrun. destruct Hrun as (cov & w6 & _ & Hrun).
  destruct (rb_username (reg_body req)) as [name |]; [| discriminate].
  apply bind_Ret in Hrun. destruct Hrun as (? & w7 & _ & Hrun).
  injection Hrun as <- _.
  exists name, pic, cov.
  repeat split; try reflexivity;
    try (apply negb_false_iff; assumption); assumption.
Qed.

Lemma register_alice_runs :
  registerUser Toy.X (Toy.at_time 1) (mkRegisterReq Toy.alice_body None) Toy.empty
  = (Ret (mkResponse 201 []
            (mkApiResponse 201 (DPending Scenario.alice_payload)
               "User registered successfully" true)),
     Scenario.pending).
Proof. vm_compute. reflexivity. Qed.

Lemma registerUser_pending_payload_witness :
  exists name profilePicUrl coverImgUrl,
    rb_username Toy.alice_body = Some name
    /\ ud_username
         (mkUserData (rb_fullname Toy.alice_body) (Some profilePicUrl)
            (Some coverImgUrl)
            (Some (Js.toLowerCase (unicode_toLowerCase Toy.X) name))
            (rb_email Toy.alice_body) (rb_githubId Toy.alice_body)
            (rb_password Toy.alice_body) (rb_position Toy.alice_body)
            (rb_description Toy.alice_body) None [] [] [] [])
       = Some "alice".
Proof.
  destruct (proj2 (registerUser_pending_payload Toy.X (Toy.at_time 1)
                     (mkRegisterReq Toy.alice_body None) Toy.empty)
              _ _ register_alice_runs)
    as (name & pic & cov & Hname & _).
  exists name, pic, cov. split; [exact Hname |].
  injection Hname as <-. reflexivity.
Defined.

(** ** The credentials of the stored users *)

Section KeepsCredentials.

Context (R : World -> World -> Prop) `{StaysCredentials R}.
Variable X : Externals.

Lemma apply_changes_credentials (changes : list Change) (u : User) :
  credentials (fold_left (fun u c => apply_change c u) changes u) = credentials u.
Proof.
  revert u. induction changes as [| c r IH]; intro u; simpl; [reflexivity |].
  rewrite IH. destruct c; reflexivity.
Qed.

Lemma kept_update (g : User -> User) :
  (forall u, credentials (g u) = credentials u) ->
  keeps R (modify (update_users g)).
Proof. intros Hg w. apply sc_update. exact Hg. Qed.

Lemma kept_User_save salt doc changes : keeps R (User_save X salt doc changes).
Proof.
  unfold User_save, pre_save. rewrite password_not_changed. simpl.
  keeps_all. apply kept_update. intro v.
  destruct (_id v =? _id doc); [apply apply_changes_credentials | reflexivity].
Qed.

Lemma kept_User_findByIdAndUpdate_refreshToken id v :
  keeps R (User_findByIdAndUpdate_refreshToken id v).
Proof.
  unfold User_findByIdAndUpdate_refreshToken.
  destruct v as [t |]; [| intro w; apply stays_refl].
  apply kept_update. intro u. destruct (_id u =? id); reflexivity.
Qed.

#[local] Hint Resolve kept_User_save kept_User_findByIdAndUpdate_refreshToken : keeps.

Lemma kept_generateAccessTokenAndRefreshToken env id :
  keeps R (generateAccessTokenAndRefreshToken X env id).
Proof. unfold generateAccessTokenAndRefreshToken. keeps_all. Qed.

Lemma kept_Project_create mk : keeps R (Project_create X mk).
Proof.
  unfold Project_create. keeps_all. intro w. apply sc_insert_project.
Qed.

#[local] Hint Resolve kept_generateAccessTokenAndRefreshToken kept_Project_create
  : keeps.

Lemma kept_loginUser env body : keeps R (loginUser X env body).
Proof. unfold loginUser. keeps_all. Qed.

Lemma kept_logoutUser user : keeps R (logoutUser user).
Proof. unfold logoutUser. keeps_all. Qed.

Lemma kept_refreshAccessToken env req : keeps R (refreshAccessToken X env req).
Proof. unfold refreshAccessToken. keeps_all. Qed.

Lemma kept_addProject env req : keeps R (addProject X env req).
Proof. unfold addProject. keeps_all. Qed.

End KeepsCredentials.

#[export] Instance StaysCore_same_credentials : StaysCore same_credentials.
Proof.
  split; unfold same_credentials; intros; simpl; try reflexivity. congruence.
Qed.

#[export] Instance StaysOtps_same_credentials : StaysOtps same_credentials.
Proof. split; unfold same_credentials; intros; reflexivity. Qed.

#[export] Instance StaysCredentials_same_credentials
  : StaysCredentials same_credentials.
Proof.
  split; try exact _; unfold same_credentials; intros; simpl; [reflexivity |].
  rewrite map_map. apply map_ext. assumption.
Qed.

Lemma insertable_checked X salt d w doc :
  insertable X salt d w = Some doc ->
  required_present doc
  /\ (forall v, In v (users w) ->
        username v <> username doc /\ email v <> email doc)
  /\ username doc = as_username X (Js.or_empty (ud_username d))
  /\ Js.truthy (ud_password d) = true.
Proof.
  rewrite insertable_steps. cbv zeta. cbn [password new_User].
  destruct (validate_User (new_User X (next_id w) d)) eqn:V; [| discriminate].
  destruct (ud_password d) as [p |] eqn:P; [| discriminate].
  match goal with |- context [duplicate_key ?u ?l] =>
    destruct (duplicate_key u l) eqn:Dup end; [discriminate |].
  intros [= <-]. unfold validate_User in V. cbn [username fullname email githubId
    password new_User] in V. rewrite P in V.
  repeat (apply andb_prop in V; destruct V as [V ?]).
  repeat match goal with
         | Hn : negb (String.eqb _ "") = true |- _ =>
             apply negb_true_iff, String.eqb_neq in Hn
         end.
  split; [| split; [| split]].
  - unfold required_present. simpl. repeat split; try assumption. discriminate.
  - intros v Hv. unfold duplicate_key in Dup.
    match type of Dup with existsb ?test _ = false =>
      assert (Hf : test v = false) end.
    { match goal with |- ?t = false => destruct t eqn:T end; [| reflexivity].
      rewrite <- Dup. symmetry. apply existsb_exists. exists v. auto. }
    cbv beta in Hf. apply orb_false_elim in Hf. destruct Hf as [Hu He].
    apply String.eqb_neq in Hu. apply String.eqb_neq in He. split; assumption.
  - reflexivity.
  - assumption.
Qed.

Lemma verifyOtp_Ret_insertable X env body w resp w' :
  verifyOtp X env body w = (Ret resp, w') ->
  exists d otpVer newUser,
    vb_userData body = Some d
    /\ insertable X (genSalt env) d (delete_otp (otp_id otpVer) w) = Some newUser
    /\ users w' = users w ++ [newUser]
    /\ _id newUser = next_id w
    /\ status resp = 200.
Proof.
  unfold verifyOtp. run_monad.
  destruct (negb (Js.truthy (vb_otp body)) || negb (Js.truthy _)); [discriminate |].
  destruct (find _ (otps w)) as [otpVer |]; [| discriminate].
  destruct (negb (bcrypt_compare X _ _)); [discriminate |].
  destruct (vb_userData body) as [d |]; [| discriminate].
  destruct (insertable X (genSalt env) d (delete_otp (otp_id otpVer) w))
    as [newUser |] eqn:I.
  - rewrite (User_create_Some _ _ _ _ _ I). intros [= <- <-].
    exists d, otpVer, newUser. repeat split; auto.
    apply (insertable_id _ _ _ _ _ I).
  - destruct (User_create_None _ _ _ _ I) as [what ->]. discriminate.
Qed.

(** Every controller but [verifyOtp] keeps the credentials of the stored
    users. *)
Lemma handle_credentials X env req w :
  same_credentials w (snd (handle X env req w))
  \/ exists body newUser resp,
       req = VerifyOtp body
       /\ fst (handle X env req w) = Ret resp /\ status resp = 200
       /\ users (snd (handle X env req w)) = users w ++ [newUser]
       /\ exists d otpVer,
            vb_userData body = Some d
            /\ insertable X (genSalt env) d (delete_otp (otp_id otpVer) w)
               = Some newUser.
Proof.
  destruct req as [r | body | b | user | r | r | r | name | name projectName | name b];
    simpl.
  - left. apply (keeps_registerUser same_credentials).
  - destruct (verifyOtp X env body w) as [[resp | e] w'] eqn:Hrun; cbn [fst snd].
    + right.
      destruct (verifyOtp_Ret_insertable _ _ _ _ _ _ Hrun)
        as (d & otpVer & newUser & Hd & Hi & Hu & _ & Hs).
      exists body, newUser, resp. repeat split; eauto.
    + left. destruct (verifyOtp_users X env body w) as [Hu | (newUser & w1 & Hr & _)].
      * rewrite Hrun in Hu. cbn [snd] in Hu. unfold same_credentials.
        rewrite Hu. reflexivity.
      * rewrite Hrun in Hr. discriminate.
  - left. apply (kept_loginUser same_credentials).
  - left. apply (kept_logoutUser same_credentials).
  - left. apply (kept_refreshAccessToken same_credentials).
  - left. apply (keeps_fetchUserData same_credentials).
  - left. apply (kept_addProject same_credentials).
  - left. apply (keeps_fetchUserProjects same_credentials).
  - left. apply (keeps_fetchProject same_credentials).
  - left. apply (keeps_sendEmail same_credentials).
Qed.

(** X12.  No request changes the [_id], username, fullname, email, githubId
    or password of a stored user, or removes or reorders users: whatever
    the request, the credentials of the stored users are what they were,
    unless it is a verification that answered 200, which appends one user.
    In particular a login, a refresh, a logout or a project creation never
    hashes a password again. *)
Theorem credentials_change_only_by_verifyOtp
    (X : Externals) (env : Env) (req : Request) (w : World) :
  same_credentials w (snd (handle X env req w))
  \/ exists body newUser resp,
       req = VerifyOtp body
       /\ fst (handle X env req w) = Ret resp /\ status resp = 200
       /\ users (snd (handle X env req w)) = users w ++ [newUser].
Proof.
  destruct (handle_credentials X env req w)
    as [Hsame | (body & newUser & resp & Hreq & Hret & Hs & Hu & _)].
  - left. exact Hsame.
  - right. exists body, newUser, resp. auto.
Qed.

Lemma schema_of_credentials (w w' : World) :
  same_credentials w w' -> schema_holds w -> schema_holds w'.
Proof.
  unfold same_credentials, schema_holds. intros Hsame (Hu & He & Hr).
  assert (Hun : map username (users w') = map username (users w)).
  { assert (Hproj : forall l, map username l
                      = map (fun c => snd (fst (fst (fst (fst c))))) (map credentials l))
      by (intro l; rewrite map_map; reflexivity).
    rewrite !Hproj, Hsame. reflexivity. }
  assert (Hem : map email (users w') = map email (users w)).
  { assert (Hproj : forall l, map email l
                      = map (fun c => snd (fst (fst c))) (map credentials l))
      by (intro l; rewrite map_map; reflexivity).
    rewrite !Hproj, Hsame. reflexivity. }
  rewrite Hun, Hem. split; [exact Hu |]. split; [exact He |].
  set (present := fun c : ObjectId * string * string * string * string * option string =>
         snd (fst (fst (fst (fst c)))) <> "" /\ snd (fst (fst (fst c))) <> ""
         /\ snd (fst (fst c)) <> "" /\ snd (fst c) <> "" /\ snd c <> None).
  assert (Hp : forall l, Forall required_present l <-> Forall present (map credentials l)).
  { intro l. rewrite Forall_map. split; intro Hl;
      (eapply Forall_impl; [| exact Hl]); intros x Hx; exact Hx. }
  apply Hp. rewrite Hsame. apply Hp. exact Hr.
Qed.

(** X13.  What the schema asks of the collection holds of the empty store
    and is kept by every request: usernames are unique, emails are unique,
    and every stored user has a username, a fullname, an email, a githubId
    and a password. *)
Theorem schema_holds_always (X : Externals) :
  (forall w, users w = [] -> schema_holds w)
  /\ forall env req w,
       schema_holds w -> schema_holds (snd (handle X env req w)).
Proof.
  split.
  - intros w Hw. unfold schema_holds. rewrite Hw. simpl.
    repeat split; constructor.
  - intros env req w Hw.
    destruct (handle_credentials X env req w)
      as [Hsame | (body & newUser & resp & _ & _ & _ & Hu & d & otpVer & _ & Hi)].
    + exact (schema_of_credentials _ _ Hsame Hw).
    + destruct (insertable_checked _ _ _ _ _ Hi) as (Hreq & Hfresh & _).
      simpl users in Hfresh.
      destruct Hw as (Hun & Hem & Hr). unfold schema_holds.
      rewrite Hu, !map_app. simpl. repeat split.
      * apply NoDup_app; [exact Hun | constructor; [intros [] | constructor] |].
        intros s Hin [<- | []]. apply in_map_iff in Hin.
        destruct Hin as (v & Hv & Hin). destruct (Hfresh v Hin). congruence.
      * apply NoDup_app; [exact Hem | constructor; [intros [] | constructor] |].
        intros s Hin [<- | []]. apply in_map_iff in Hin.
        destruct Hin as (v & Hv & Hin). destruct (Hfresh v Hin). congruence.
      * apply Forall_app. split; [exact Hr | constructor; [exact Hreq | constructor]].
Qed.

Lemma schema_holds_always_witness : schema_holds Scenario.overtaken.
Proof.
  destruct (schema_holds_always Toy.X) as [Hempty Hkeep].
  exact (Hkeep (Toy.at_time 3) (VerifyOtp Scenario.verify_alice) _
           (Hkeep (Toy.at_time 2)
              (Register (mkRegisterReq
                 (mkRegisterBody (Some "alice") (Some "Carol C")
                    (Some "carol@example.org") (Some "pa55") (Some "carol-gh")
                    (Some "ops") (Some "hi")) None))
              _ (Hkeep (Toy.at_time 1)
                   (Register (mkRegisterReq Toy.alice_body None)) Toy.empty
                   (Hempty Toy.empty eq_refl)))).
Defined.

(** X17.  [verifyOtp] never lets an error through that is not an
    [ApiError].  When it fails with 400 or 404 it has written nothing, so a
    wrong code neither consumes the pending record nor counts against it;
    every other failure is a 500. *)
Theorem verifyOtp_failures (X : Externals) (env : Env) (body : VerifyBody)
    (w : World) :
  let r := verifyOtp X env body w in
  match fst r with
  | Ret resp => status resp = 200
  | Throw (Api e) =>
      err_statusCode e = 500
      \/ (snd r = w /\ (err_statusCode e = 400 \/ err_statusCode e = 404))
  | Throw (Other _) => False
  end.
Proof.
  cbv zeta. unfold verifyOtp. run_monad.
  destruct (negb (Js.truthy (vb_otp body)) || negb (Js.truthy _)); [simpl; auto |].
  destruct (find _ (otps w)) as [otpVer |]; [| simpl; auto].
  destruct (negb (bcrypt_compare X _ _)); [simpl; auto |].
  destruct (vb_userData body) as [d |]; [| simpl; auto].
  destruct (insertable X (genSalt env) d (delete_otp (otp_id otpVer) w))
    as [newUser |] eqn:I.
  - rewrite (User_create_Some _ _ _ _ _ I). reflexivity.
  - destruct (User_create_None _ _ _ _ I) as [what ->]. simpl. auto.
Qed.

(** ** From verification to login *)

Lemma find_appended {A} (test : A -> bool) (l : list A) (x : A) :
  (forall y, In y l -> test y = false) -> test x = true ->
  find test (l ++ [x]) = Some x.
Proof.
  intros Hl Hx. induction l as [| a r IH]; simpl.
  - rewrite Hx. reflexivity.
  - rewrite (Hl a (or_introl eq_refl)). apply IH. intros y Hy. apply Hl. right. exact Hy.
Qed.

(** A login that finds its user, with the password that matches, answers. *)
Lemma loginUser_accepts X env body pw w foundUser h :
  Js.truthy (lb_username body) || Js.truthy (lb_email body) = true ->
  lb_password body = Some pw -> pw <> "" ->
  find (login_match X body) (users w) = Some foundUser ->
  find (fun u => _id u =? _id foundUser) (users w) = Some foundUser ->
  password foundUser = Some h ->
  bcrypt_compare X pw h = true ->
  exists resp,
    loginUser X env body w
    = (Ret resp,
       store_refreshToken (_id foundUser)
         (Some (generateRefreshToken X foundUser (now env))) w)
    /\ status resp = 200.
Proof.
  intros Hident Hpw Hne Hfound Hid Hh Hcmp.
  unfold loginUser. rewrite Hident, Hpw, truthy_Some by assumption.
  cbn [Js.or_empty andb negb]. run_monad.
  change (find _ (users w)) with (find (login_match X body) (users w)).
  rewrite Hfound. unfold isPasswordCorrect. rewrite Hh. unfold ret.
  rewrite Hcmp. cbn [negb].
  rewrite (generateAccessTokenAndRefreshToken_found _ _ _ _ _ Hid).
  eexists. split; reflexivity.
Qed.

(** X11.  A user that [verifyOtp] has created can log in with the username
    and the password as they were submitted: on a store whose [_id]s are
    fresh, and with a bcrypt that recognises the password it has just hashed,
    the new user is stored under the submitted username trimmed and in lower
    case, which is how the login query casts the name it is given, and a
    login with the submitted username and password answers 200, at any later
    time. *)
Theorem created_user_can_log_in
    (X : Externals) (env env' : Env) (body : VerifyBody) (w w' : World)
    (resp : Response) :
  verifyOtp X env body w = (Ret resp, w') ->
  ids_fresh w ->
  (forall d p,
      vb_userData body = Some d -> ud_password d = Some p ->
      bcrypt_compare X p (bcrypt_hash X p (genSalt env)) = true) ->
  exists d name p newUser,
    vb_userData body = Some d /\ ud_username d = Some name
    /\ ud_password d = Some p
    /\ In newUser (users w')
    /\ username newUser
       = Js.toLowerCase (unicode_toLowerCase X) (Js.trim name)
    /\ exists resp' w'',
         loginUser X env' (mkLoginBody None (Some name) (Some p)) w'
         = (Ret resp', w'')
         /\ status resp' = 200.
Proof.
  intros Hrun [Hnd Hlt] Hbcrypt.
  destruct (verifyOtp_Ret_insertable _ _ _ _ _ _ Hrun)
    as (d & otpVer & newUser & Hd & Hi & Hu & Hid & _).
  destruct (insertable_checked _ _ _ _ _ Hi) as (Hreq & Hfresh & Hname & Htruthy).
  destruct (insertable_password _ _ _ _ _ Hi) as (p & Hp & Hh).
  simpl users in Hfresh.
  destruct Hreq as (Hun & _).
  destruct (ud_username d) as [name |] eqn:Hsubmitted;
    [| exfalso; apply Hun; rewrite Hname; reflexivity].
  cbn [Js.or_empty] in Hname.
  assert (Hnamed : name <> "").
  { intros ->. apply Hun. rewrite Hname. reflexivity. }
  exists d, name, p, newUser. split; [exact Hd |]. split; [exact Hsubmitted |].
  split; [exact Hp |].
  split; [rewrite Hu; apply in_or_app; right; left; reflexivity |].
  split; [exact Hname |].
  assert (Hpne : p <> "").
  { rewrite Hp in Htruthy. unfold Js.truthy in Htruthy.
    destruct (String.eqb_spec p ""); [discriminate | assumption]. }
  destruct (loginUser_accepts X env'
              (mkLoginBody None (Some name) (Some p)) p w' newUser
              (bcrypt_hash X p (genSalt env))) as (resp' & Hlogin & Hs).
  - cbn [lb_username lb_email]. rewrite truthy_Some by assumption. reflexivity.
  - reflexivity.
  - exact Hpne.
  - rewrite Hu. apply find_appended.
    + intros v Hv. unfold login_match.
      cbn [lb_username lb_email eqb_value option_map].
      rewrite orb_false_r. apply String.eqb_neq. intro E.
      destruct (Hfresh v Hv) as [Hne _]. congruence.
    + unfold login_match. cbn [lb_username eqb_value option_map].
      rewrite Hname, String.eqb_refl. reflexivity.
  - rewrite Hu. apply find_appended.
    + intros v Hv. apply Nat.eqb_neq. rewrite Forall_forall in Hlt.
      specialize (Hlt v Hv). lia.
    + apply Nat.eqb_refl.
  - exact Hh.
  - apply (Hbcrypt d p Hd Hp).
  - eauto.
Qed.

Lemma created_user_can_log_in_witness :
  exists resp' w'',
    loginUser Toy.X (Toy.at_time 7) (mkLoginBody None (Some "alice") (Some "s3cret"))
      Scenario.registered
    = (Ret resp', w'')
    /\ status resp' = 200.
Proof.
  assert (Hfresh : ids_fresh Scenario.pending).
  { split; simpl; constructor. }
  destruct (created_user_can_log_in Toy.X (Toy.at_time 2) (Toy.at_time 7)
              Scenario.verify_alice Scenario.pending Scenario.registered _
              verify_alice_runs Hfresh)
    as (d & name & p & newUser & Hd & Hn & Hp & _ & _ & resp' & w'' & Hlogin & Hs).
  - intros d p Hd Hp. injection Hd as <-. injection Hp as <-. reflexivity.
  - injection Hd as <-. injection Hn as <-. injection Hp as <-.
    exists resp', w''. split; [exact Hlogin | exact Hs].
Defined.

(** The login query casts the name: capitals and padding, a no-break space
    included, find the same user. *)
Example loginUser_casts_the_username :
  option_map status
    (returned (fst (loginUser Toy.X (Toy.at_time 7)
                      (mkLoginBody None
                         (Some (String.append " ALICE" (Js.bytes [194; 160])))
                         (Some "s3cret"))
                      Scenario.registered)))
  = Some 200.
Proof. vm_compute. reflexivity. Qed.

(** ** [addProject]: guards, uploads and failures *)

Lemma project_guard_fails b :
  project_fields_present b = false ->
  negb (Js.truthy (pb_name b)) || negb (Js.truthy (pb_repoId b))
  || negb (Js.truthy (pb_url b)) || negb (Js.truthy (pb_description b))
  || negb (Js.truthy (pb_domain b)) = true.
Proof.
  unfold project_fields_present.
  destruct (Js.truthy (pb_name b)), (Js.truthy (pb_repoId b)),
    (Js.truthy (pb_url b)), (Js.truthy (pb_description b)),
    (Js.truthy (pb_domain b)); simpl; congruence.
Qed.

(** X14.  The guards of [addProject], in the order the code has them:
    without [req.user] the answer is 404 "User not found"; with it, a body
    without [ownersUsernames] or without [techStack] is answered 500, the
    [split] on [undefined] being caught, whatever else the body has; and
    with both, a name, repoId, url, description or domain that is missing or
    empty is answered 400.  None of the three reads or writes the store. *)
Theorem addProject_guards (X : Externals) (env : Env) (req : ProjectReq) (w : World) :
  match pr_user req, pb_ownersUsernames (pr_body req), pb_techStack (pr_body req) with
  | None, _, _ =>
      addProject X env req w = (Throw (Api (mkApiError 404 "User not found")), w)
  | Some _, Some _, Some _ =>
      project_fields_present (pr_body req) = true
      \/ addProject X env req w
         = (Throw (Api (mkApiError 400 "Missing required project data")), w)
  | Some _, _, _ =>
      addProject X env req w
      = (Throw (Api (mkApiError 500 "Internal Server Error while adding project")), w)
  end.
Proof.
  unfold addProject.
  destruct (pr_user req) as [user |]; [| reflexivity].
  destruct (pb_ownersUsernames (pr_body req)) as [ownersUsernames |],
    (pb_techStack (pr_body req)) as [techStack |]; try reflexivity.
  destruct (project_fields_present (pr_body req)) eqn:Hpresent; [left; reflexivity |].
  right. rewrite (project_guard_fails _ Hpresent). reflexivity.
Qed.

Lemma upload_or_500_run X kind path w :
  upload_or_500 X kind path w
  = match uploadFileToCloudinary X path with
    | UploadResponse url =>
        (Ret (Js.or_empty url), set_cloud (fun l => l ++ [path]) w)
    | UploadNull => (Ret "", w)
    | UploadError msg => (Throw (Api (mkApiError 500 (upload_failed kind msg))), w)
    end.
Proof.
  unfold upload_or_500, upload. run_monad.
  destruct (uploadFileToCloudinary X path); reflexivity.
Qed.

(** A batch of uploads: every file is offered, the accepted ones are in
    storage afterwards, and the batch fails with the 500 of a rejected file
    exactly when there is one. *)
Lemma Promise_all_uploads X kind paths w :
  exists r,
    Promise_all (upload_or_500 X kind) paths w
    = (r, set_cloud (fun l => l ++ taken X paths) w)
    /\ match r with
       | Ret urls =>
           forall path msg,
             In path paths -> uploadFileToCloudinary X path <> UploadError msg
       | Throw e =>
           exists path msg,
             In path paths /\ uploadFileToCloudinary X path = UploadError msg
             /\ e = Api (mkApiError 500 (upload_failed kind msg))
       end.
Proof.
  revert w. induction paths as [| a rest IH]; intro w.
  - exists (Ret []). split.
    + destruct w. unfold set_cloud, taken. simpl. rewrite app_nil_r. reflexivity.
    + intros path msg [].
  - cbn [Promise_all]. rewrite upload_or_500_run.
    assert (Hcloud : forall keep,
               set_cloud (fun l => l ++ keep) (set_cloud (fun l => l ++ [a]) w)
               = set_cloud (fun l => l ++ a :: keep) w).
    { intro keep. unfold set_cloud. simpl. rewrite <- app_assoc. reflexivity. }
    unfold taken. cbn [filter]. fold (taken X rest).
    destruct (uploadFileToCloudinary X a) as [url | | msg] eqn:Ea.
    + destruct (IH (set_cloud (fun l => l ++ [a]) w)) as (r & -> & Hr).
      rewrite Hcloud. destruct r as [urls | e].
      * eexists. split; [reflexivity |].
        intros path m [<- | Hin]; [congruence | eauto].
      * eexists. split; [reflexivity |].
        destruct Hr as (path & m & Hin & Hm & ->). exists path, m. simpl. auto.
    + destruct (IH w) as (r & -> & Hr). destruct r as [urls | e].
      * eexists. split; [reflexivity |].
        intros path m [<- | Hin]; [congruence | eauto].
      * eexists. split; [reflexivity |].
        destruct Hr as (path & m & Hin & Hm & ->). exists path, m. simpl. auto.
    + destruct (IH w) as (r & -> & _). cbn [snd].
      eexists. split; [reflexivity |]. exists a, msg. simpl. auto.
Qed.

(** X15.  A rejected video: for a request that passes the guards and whose
    owners all have a user, when object storage rejects one of the videos
    the answer is the 500 that carries the message of a rejected video; no
    Project is created and no user changed, the images and the thumbnail
    are never offered, and the videos that were accepted stay in storage. *)
Theorem addProject_rejected_video
    (X : Externals) (env : Env) (req : ProjectReq) (user : User)
    (ownersUsernames techStack : string) (fs : ProjectFiles)
    (videos : list string) (w : World) :
  pr_user req = Some user ->
  pb_ownersUsernames (pr_body req) = Some ownersUsernames ->
  pb_techStack (pr_body req) = Some techStack ->
  project_fields_present (pr_body req) = true ->
  (forall name, In name (owner_names ownersUsernames) -> resolve X w name <> None) ->
  pr_files req = Some fs -> pf_videos fs = Some videos ->
  (exists path msg, In path videos /\ uploadFileToCloudinary X path = UploadError msg) ->
  exists path msg,
    In path videos /\ uploadFileToCloudinary X path = UploadError msg
    /\ addProject X env req w
       = (Throw (Api (mkApiError 500 (upload_failed "video" msg))),
          set_cloud (fun l => l ++ taken X videos) w).
Proof.
  intros Huser Hou Hts Hpresent Hknown Hfiles Hvideos (bad & m & Hbad & Hm).
  destruct (Promise_all_find_owner X (owner_names ownersUsernames) w)
    as [(owners & Ho & _) | (missing & Hin & Hnone & _)];
    [| exfalso; exact (Hknown missing Hin Hnone)].
  destruct (Promise_all_uploads X "video" videos w) as (r & Hup & Hr).
  destruct r as [urls | e]; [exfalso; exact (Hr bad m Hbad Hm) |].
  destruct Hr as (path & msg & Hpath & Hmsg & ->).
  exists path, msg. split; [exact Hpath |]. split; [exact Hmsg |].
  unfold addProject. rewrite Huser, Hou, Hts, project_guard_passes by assumption.
  fold (owner_names ownersUsernames). run_monad. rewrite Ho, Hfiles, Hvideos.
  unfold upload_each. rewrite Hup. reflexivity.
Qed.

Lemma addProject_rejected_video_witness :
  exists path msg,
    In path ["demo.mp4"; "big.mp4"; "tour.mp4"]
    /\ uploadFileToCloudinary Outage.X path = UploadError msg
    /\ addProject Outage.X (Toy.at_time 6)
         (mkProjectReq (Some Scenario.alice)
            (mkProjectBody (Some "prover") (Some "r1") (Some "https://x.example")
               (Some "a prover") (Some "logic") (Some "coq, ocaml") None
               (Some "alice"))
            (Some (mkProjectFiles (Some ["demo.mp4"; "big.mp4"; "tour.mp4"])
                     (Some ["shot.png"]) None)))
         Scenario.logged_in
       = (Throw (Api (mkApiError 500 (upload_failed "video" msg))),
          set_cloud (fun l => l ++ ["demo.mp4"; "tour.mp4"]) Scenario.logged_in).
Proof.
  apply (addProject_rejected_video Outage.X (Toy.at_time 6)
           (mkProjectReq (Some Scenario.alice)
              (mkProjectBody (Some "prover") (Some "r1") (Some "https://x.example")
                 (Some "a prover") (Some "logic") (Some "coq, ocaml") None
                 (Some "alice"))
              (Some (mkProjectFiles (Some ["demo.mp4"; "big.mp4"; "tour.mp4"])
                       (Some ["shot.png"]) None)))
           Scenario.alice "alice" "coq, ocaml"
           (mkProjectFiles (Some ["demo.mp4"; "big.mp4"; "tour.mp4"])
              (Some ["shot.png"]) None)
           ["demo.mp4"; "big.mp4"; "tour.mp4"] Scenario.logged_in
           eq_refl eq_refl eq_refl eq_refl).
  - intros name [<- | []]. vm_compute. discriminate.
  - reflexivity.
  - reflexivity.
  - exists "big.mp4", "File size too large". split; [simpl; auto | reflexivity].
Defined.

(** A list that ends in a comma has an empty last piece. *)
Lemma split_trailing_separator sep s :
  exists h t,
    Js.split sep (String.append s (String sep "")) = h :: t /\ In "" t.
Proof.
  induction s as [| c r (h & t & IH & Hin)]; cbn [String.append Js.split].
  - rewrite Ascii.eqb_refl. exists "", [""]. simpl. auto.
  - destruct (Ascii.eqb c sep).
    + exists "", (h :: t). rewrite IH. split; [reflexivity | right; exact Hin].
    + rewrite IH. exists (String c h), t. auto.
Qed.

(** X16.  An owners list that is empty or ends in a comma: its last piece
    is the empty name, which no user has where the schema holds, so a
    request that passes the guards is answered 404 and nothing is
    written. *)
Theorem addProject_trailing_comma
    (X : Externals) (env : Env) (req : ProjectReq) (user : User)
    (ownersUsernames techStack : string) (w : World) :
  pr_user req = Some user ->
  pb_ownersUsernames (pr_body req) = Some ownersUsernames ->
  pb_techStack (pr_body req) = Some techStack ->
  project_fields_present (pr_body req) = true ->
  schema_holds w ->
  ownersUsernames = "" \/ (exists names, ownersUsernames = String.append names ",") ->
  exists msg, addProject X env req w = (Throw (Api (mkApiError 404 msg)), w).
Proof.
  intros Huser Hou Hts Hpresent (_ & _ & Hreq) Hshape.
  apply (addProject_unknown_owner X env req user ownersUsernames techStack w "");
    try assumption.
  - unfold owner_names. destruct Hshape as [-> | (names & ->)].
    + left. reflexivity.
    + destruct (split_trailing_separator "," names) as (h & t & -> & Hin).
      cbn [map]. right. change "" with (Js.trim ""). apply in_map. exact Hin.
  - intros u Hu. rewrite Forall_forall in Hreq. exact (proj1 (Hreq u Hu)).
Qed.

Lemma addProject_trailing_comma_witness :
  exists msg,
    addProject Toy.X (Toy.at_time 6)
      (mkProjectReq (Some Scenario.alice)
         (mkProjectBody (Some "prover") (Some "r1") (Some "https://x.example")
            (Some "a prover") (Some "logic") (Some "coq, ocaml") None
            (Some "alice,"))
         None)
      Scenario.logged_in
    = (Throw (Api (mkApiError 404 msg)), Scenario.logged_in).
Proof.
  apply (addProject_trailing_comma Toy.X (Toy.at_time 6)
           (mkProjectReq (Some Scenario.alice)
              (mkProjectBody (Some "prover") (Some "r1") (Some "https://x.example")
                 (Some "a prover") (Some "logic") (Some "coq, ocaml") None
                 (Some "alice,"))
              None)
           Scenario.alice "alice," "coq, ocaml" Scenario.logged_in
           eq_refl eq_refl eq_refl eq_refl).
  - split; [| split]; simpl.
    + constructor; [intros [] | constructor].
    + constructor; [intros [] | constructor].
    + constructor; [| constructor]. unfold required_present. simpl.
      repeat split; discriminate.
  - right. exists "alice". reflexivity.
Defined.

Lemma bind_Throw {A B} (m : M A) (k : A -> M B) w e w' :
  bind m k w = (Throw e, w') ->
  m w = (Throw e, w')
  \/ exists a w1, m w = (Ret a, w1) /\ k a w1 = (Throw e, w').
Proof.
  unfold bind. destruct (m w) as [[a | e0] w1]; intro Hrun;
    [right; eauto | left; injection Hrun as <- <-; reflexivity].
Qed.

Lemma try_catch_rethrow_Throw {A} (m : M A) msg w e w' :
  try_catch m (rethrow msg) w = (Throw e, w') ->
  exists e0,
    m w = (Throw e0, w')
    /\ e = match e0 with
           | Api a => Api a
           | Other _ => Api (mkApiError 500 msg)
           end.
Proof.
  unfold try_catch. destruct (m w) as [[a | e0] w1]; [discriminate |].
  destruct e0; unfold rethrow, throw, throwApi; intros [= <- <-]; eauto.
Qed.

Lemma throw_if_Throw (c : bool) (e : Exn) w e0 w' :
  throw_if c e w = (Throw e0, w') -> e0 = e /\ w' = w.
Proof.
  destruct c; unfold throw_if, throw, ret; intros Hrun;
    [injection Hrun as <- <-; auto | discriminate].
Qed.

Lemma upload_each_Throw X kind field w e w' :
  upload_each X kind field w = (Throw e, w') ->
  (exists msg, e = Api (mkApiError 500 msg)) /\ users w' = users w.
Proof.
  destruct field as [paths |]; unfold upload_each; [| discriminate].
  destruct (Promise_all_uploads X kind paths w) as (r & -> & Hr).
  intros [= -> <-]. destruct Hr as (_ & msg & _ & _ & ->). eauto.
Qed.

Lemma Project_create_Throw X mk w e w' :
  Project_create X mk w = (Throw e, w') ->
  (exists what, e = Other what) /\ users w' = users w.
Proof.
  unfold Project_create. run_monad.
  destruct (negb (Project_validate X (mk (next_id w)))); [| discriminate].
  intros [= <- <-]. eauto.
Qed.

Lemma User_save_push_Throw X salt doc p w e w' :
  User_save X salt doc [PushProject p] w = (Throw e, w') ->
  (exists what, e = Other what) /\ w' = w.
Proof.
  unfold User_save, pre_save.
  cbn [map change_path existsb String.eqb Ascii.eqb Bool.eqb orb negb fold_left
       apply_change].
  run_monad. destruct (find _ (users w)) as [stored |]; [discriminate |].
  intros [= <- <-]. eauto.
Qed.

Ltac failed_with :=
  eexists _, _; split; [reflexivity |];
  split;
  [ first [ left; split; [first [left; reflexivity | right; reflexivity] | reflexivity]
          | right; reflexivity ]
  | first [reflexivity | congruence] ].

(** X18.  How [addProject] fails: always with an [ApiError], of status 400,
    404 or 500; a 400 or a 404 has left the store as it was, and after any
    failure every user document is what it was, the creating user's list of
    projects included. *)
Theorem addProject_failures
    (X : Externals) (env : Env) (req : ProjectReq) (w : World)
    (e : Exn) (w' : World) :
  addProject X env req w = (Throw e, w') ->
  exists c msg,
    e = Api (mkApiError c msg)
    /\ (((c = 400 \/ c = 404) /\ w' = w) \/ c = 500)
    /\ users w' = users w.
Proof.
  intro Hrun. unfold addProject in Hrun.
  apply try_catch_rethrow_Throw in Hrun. destruct Hrun as (e0 & Hbody & ->).
  destruct (pr_user req) as [user |].
  2: { injection Hbody as <- <-. failed_with. }
  destruct (pb_ownersUsernames (pr_body req)) as [ownersUsernames |],
    (pb_techStack (pr_body req)) as [techStack |];
    try (injection Hbody as <- <-; failed_with).
  cbv zeta in Hbody. fold (owner_names ownersUsernames) in Hbody.
  apply bind_Throw in Hbody. destruct Hbody as [H | (? & w1 & H1 & Hbody)].
  { apply throw_if_Throw in H. destruct H as [-> ->].
    failed_with. }
  apply throw_if_Ret in H1. destruct H1 as [_ ->].
  destruct (Promise_all_find_owner X (owner_names ownersUsernames) w)
    as [(owners' & Ho & _) | (missing & _ & _ & Ho)].
  2: { unfold bind in Hbody. rewrite Ho in Hbody. injection Hbody as <- <-.
       failed_with. }
  apply bind_Throw in Hbody. rewrite Ho in Hbody.
  destruct Hbody as [H | (owners & w2 & H2 & Hbody)]; [discriminate |].
  injection H2 as <- <-.
  apply bind_Throw in Hbody. destruct Hbody as [H | (videosUrl & w3 & H3 & Hbody)].
  { apply upload_each_Throw in H. destruct H as [(msg & ->) Hu].
    failed_with. }
  apply same_docs_of_run in H3; [| auto with keeps]. destruct H3 as [Hu3 _].
  apply bind_Throw in Hbody. destruct Hbody as [H | (imagesUrl & w4 & H4 & Hbody)].
  { apply upload_each_Throw in H. destruct H as [(msg & ->) Hu].
    failed_with. }
  apply same_docs_of_run in H4; [| auto with keeps]. destruct H4 as [Hu4 _].
  apply bind_Throw in Hbody.
  destruct Hbody as [H | (thumbnailUrl & w5 & H5 & Hbody)].
  { assert (Hthumb : users w' = users w4
                     /\ exists msg,
                          match e0 with
                          | Api a => Api a
                          | Other _ =>
                              Api (mkApiError 500
                                     "Internal Server Error while adding project")
                          end = Api (mkApiError 500 msg)).
    { destruct (match pr_files req with
                | Some fs => pf_thumbnail fs
                | None => None
                end) as [[| thumbnailPath rest] |].
      - injection H as <- <-. split; [reflexivity |]. eexists. reflexivity.
      - rewrite upload_or_500_run in H.
        destruct (uploadFileToCloudinary X thumbnailPath); try discriminate.
        injection H as <- <-. split; [reflexivity |]. eexists. reflexivity.
      - discriminate. }
    destruct Hthumb as (Hu & msg & ->). failed_with. }
  apply same_docs_of_run in H5; [| keeps_all]. destruct H5 as [Hu5 _].
  apply bind_Throw in Hbody. destruct Hbody as [H | (newProject & w6 & H6 & Hbody)].
  { apply Project_create_Throw in H. destruct H as [(what & ->) Hu].
    failed_with. }
  apply Project_create_Ret in H6. destruct H6 as (_ & Hu6 & _).
  apply bind_Throw in Hbody. destruct Hbody as [H | ([] & w7 & _ & Hbody)];
    [| discriminate].
  apply User_save_push_Throw in H. destruct H as [(what & ->) ->].
  failed_with.
Qed.

Lemma addProject_ghost_owner_runs :
  addProject Toy.X (Toy.at_time 6)
    (mkProjectReq (Some Scenario.alice)
       (mkProjectBody (Some "prover") (Some "r1") (Some "https://x.example")
          (Some "a prover") (Some "logic") (Some "coq, ocaml") None
          (Some "alice, ghost"))
       None)
    Scenario.logged_in
  = (Throw (Api (mkApiError 404 (owner_not_found "ghost"))), Scenario.logged_in).
Proof. reflexivity. Qed.

Lemma addProject_failures_witness :
  exists c msg,
    Api (mkApiError 404 (owner_not_found "ghost")) = Api (mkApiError c msg)
    /\ (((c = 400 \/ c = 404) /\ Scenario.logged_in = Scenario.logged_in) \/ c = 500)
    /\ users Scenario.logged_in = users Scenario.logged_in.
Proof.
  exact (addProject_failures Toy.X (Toy.at_time 6) _ _ _ _
           addProject_ghost_owner_runs).
Defined.
